(** * Catalog backend: object-storage service, bucket backup and bucket-name forms

    A shallow embedding of [services/s3_service.py], of the bucket-name
    validators of [products/forms.py] and of the backup view of
    [products/views.py].

    Python text is modelled as [string], one character per code point, for
    the code points below 256; text with other code points is not
    represented.  The character classes and the case mapping are Python's
    ([str.isalnum], [str.lower], ...) on these code points.  A literal that
    has characters outside ASCII is written as in the source and decoded by
    [Py.text].  Calls into boto3 are effects:
    every call is answered by an oracle that sees the whole trace of earlier
    calls, and the call together with its answer is appended to the trace.
    Python exceptions are values of [exn]; a method is a state transformer
    that either returns or raises. *)

From stdpp Require Import base strings list gmap pretty.
From Stdlib Require Import Ascii String Lia.

Open Scope string_scope.
Open Scope list_scope.

(** ** Python strings *)

Module Py.

(** [lo <= ord(c) <= hi] *)
Definition between (lo hi : nat) (c : ascii) : bool :=
  let n := nat_of_ascii c in (lo <=? n)%nat && (n <=? hi)%nat.

(** [ord(c) < 128] *)
Definition is_ascii (c : ascii) : bool := (nat_of_ascii c <? 128)%nat.

(** [c.isupper()]: A-Z, and the capital letters 192-214 and 216-222 *)
Definition is_upper (c : ascii) : bool :=
  between 65 90 c || between 192 214 c || between 216 222 c.

(** [c.islower()]: a-z, the ordinal indicators 170 and 186, the micro sign
    181, and the small letters 223-246 and 248-255 *)
Definition is_lower (c : ascii) : bool :=
  between 97 122 c || between 170 170 c || between 181 181 c || between 186 186 c
  || between 223 246 c || between 248 255 c.

(** [c.isalpha()]: below 256 every letter is upper or lower case *)
Definition is_alpha (c : ascii) : bool := is_upper c || is_lower c.

(** [c.isdigit()]: 0-9 and the superscripts 178, 179 and 185 *)
Definition is_digit (c : ascii) : bool :=
  between 48 57 c || between 178 179 c || between 185 185 c.

(** [c.isnumeric()]: the digits and the fractions 188-190 *)
Definition is_numeric (c : ascii) : bool := is_digit c || between 188 190 c.

(** [c.isalnum()]: [isalpha], [isdecimal], [isdigit] or [isnumeric] *)
Definition is_alnum (c : ascii) : bool := is_alpha c || is_numeric c.

(** [c.lower()]: the capital letters have their small letter 32 places up *)
Definition lower_char (c : ascii) : ascii :=
  if is_upper c then ascii_of_nat (nat_of_ascii c + 32) else c.

(** The text of a literal written in UTF-8: the two bytes of a code point
    from 128 to 255 become that code point. *)
Fixpoint text (literal : string) : string :=
  match literal with
  | EmptyString => EmptyString
  | String a rest =>
      match rest with
      | String b rest' =>
          if Nat.eqb (nat_of_ascii a) 194 then String b (text rest')
          else if Nat.eqb (nat_of_ascii a) 195
               then String (ascii_of_nat (nat_of_ascii b + 64)) (text rest')
               else String a (text rest)
      | EmptyString => String a EmptyString
      end
  end.

(** [s.lower()] *)
Fixpoint lower (s : string) : string :=
  match s with
  | EmptyString => EmptyString
  | String c s' => String (lower_char c) (lower s')
  end.

(** [c in s] for a one-character [c] *)
Fixpoint contains (c : ascii) (s : string) : bool :=
  match s with
  | EmptyString => false
  | String d s' => if Ascii.eqb d c then true else contains c s'
  end.

(** [s.split(sep)] for a one-character separator: never the empty list *)
Fixpoint split (sep : ascii) (s : string) : list string :=
  match s with
  | EmptyString => [EmptyString]
  | String c s' =>
      if Ascii.eqb c sep then EmptyString :: split sep s'
      else match split sep s' with
           | seg :: rest => String c seg :: rest
           | [] => [String c EmptyString]
           end
  end.

(** [l[-1]] on the result of a split *)
Definition last_item (l : list string) : string := List.last l EmptyString.

(** [s.replace(old, new)] for a one-character [old] *)
Fixpoint replace (old : ascii) (new : string) (s : string) : string :=
  match s with
  | EmptyString => EmptyString
  | String c s' =>
      if Ascii.eqb c old then new +:+ replace old new s'
      else String c (replace old new s')
  end.

Fixpoint all_chars (p : ascii -> bool) (s : string) : bool :=
  match s with
  | EmptyString => true
  | String c s' => p c && all_chars p s'
  end.

(** [s.isalnum()]: at least one character and all of them alphanumeric *)
Definition isalnum (s : string) : bool :=
  match s with
  | EmptyString => false
  | _ => all_chars is_alnum s
  end.

(** truth value of a string: [not s] is [negb (truthy s)] *)
Definition truthy (s : string) : bool :=
  match s with EmptyString => false | _ => true end.

(** [len(s)]: the number of code points *)
Definition len (s : string) : nat := String.length s.

(** [str(n)] for a non-negative integer *)
Definition str_int (n : nat) : string := pretty n.

End Py.

(** ** Exceptions *)

(** The exception classes the code tells apart.  [ClientError] is botocore's
    error response of the service: the operation's name,
    [e.response['Error']['Code']], and [e.response['Error']['Message']]
    when the response has that entry.  [NoCredentialsError] is botocore's;
    [PyError cls msg] is any other subclass of [Exception], [Exception]
    itself included. *)
Inductive exn : Type :=
| ClientError (operation code : string) (message : option string)
| NoCredentialsError
| PyError (cls msg : string).

(** [str(e)]; botocore writes [Unknown] for a message that is missing *)
Definition str (e : exn) : string :=
  match e with
  | ClientError op code msg =>
      "An error occurred (" +:+ code +:+ ") when calling the " +:+ op
        +:+ " operation: " +:+ default "Unknown" msg
  | NoCredentialsError => "Unable to locate credentials"
  | PyError _ msg => msg
  end.

Definition Exception (msg : string) : exn := PyError "Exception" msg.
Definition ValidationError (msg : string) : exn := PyError "ValidationError" msg.

Inductive result (A : Type) : Type :=
| Return (a : A)
| Raise (e : exn).
Arguments Return {A} a.
Arguments Raise {A} e.

(** ** The storage backend seen from the code *)

(** One entry of a listing page ([obj['Key']]). *)
Record s3_object : Type := { Key : string }.

(** A page of [list_objects_v2]: the ['Contents'] entry is absent on an empty
    listing.  Fetching a page can raise. *)
Inductive page_event : Type :=
| Page (Contents : option (list s3_object))
| PageError (e : exn).

(** A call on the boto3 client with the answer it got ([None]: no error). *)
Inductive event : Type :=
| EvClient (access_key secret_key : option string) (region : string) (resp : option exn)
| EvHeadBucket (bucket : string) (resp : option exn)
| EvHeadObject (bucket key : string) (resp : option exn)
| EvUpload (bucket key content_type : string) (body : list Byte.byte) (resp : option exn)
| EvDelete (bucket key : string) (resp : option exn)
| EvCopy (src_bucket src_key dst_bucket dst_key acl : string) (resp : option exn)
| EvListPage (bucket : string) (resp : page_event).

(** The backend: each answer may depend on everything that happened before.
    [paginate bucket] is the page iterator of the [list_objects_v2] paginator,
    a finite sequence of page fetches. *)
Record Backend : Type := {
  boto3_client : list event -> option string -> option string -> string -> option exn;
  head_bucket : list event -> string -> option exn;
  head_object : list event -> string -> string -> option exn;
  upload_fileobj : list event -> string -> string -> string -> list Byte.byte -> option exn;
  delete_object : list event -> string -> string -> option exn;
  copy_object : list event -> string -> string -> string -> string -> string -> option exn;
  paginate : string -> list (list event -> page_event)
}.

Inductive level : Type := INFO | WARNING | ERROR.

(** What a run has done so far: the backend calls and the log records. *)
Record state : Type := { trace : list event; logs : list (level * string) }.

Definition initial : state := {| trace := []; logs := [] |}.

(** ** The monad of methods: state and exceptions *)

Definition M (A : Type) : Type := state -> state * result A.

Definition ret {A} (a : A) : M A := fun s => (s, Return a).

Definition raise {A} (e : exn) : M A := fun s => (s, Raise e).

Definition bind {A B} (m : M A) (k : A -> M B) : M B :=
  fun s => match m s with
           | (s', Return a) => k a s'
           | (s', Raise e) => (s', Raise e)
           end.

(** [try: m  except ...: h e]; a handler that does not match re-raises. *)
Definition try_except {A} (m : M A) (h : exn -> M A) : M A :=
  fun s => match m s with
           | (s', Return a) => (s', Return a)
           | (s', Raise e) => h e s'
           end.

#[global] Instance M_ret : MRet M := @ret.
#[global] Instance M_bind : MBind M := fun A B k m => bind m k.

Definition logger (lv : level) (msg : string) : M unit :=
  fun s => ({| trace := trace s; logs := logs s ++ [(lv, msg)] |}, Return tt).

(** A backend call: ask the oracle, record the event, raise on an error. *)
Definition call (ask : list event -> option exn) (ev : option exn -> event) : M unit :=
  fun s => let r := ask (trace s) in
           let s' := {| trace := trace s ++ [ev r]; logs := logs s |} in
           match r with
           | None => (s', Return tt)
           | Some e => (s', Raise e)
           end.

(** [for x in xs: acc = body acc x], leaving at the first exception *)
Fixpoint for_each {A X} (body : A -> X -> M A) (xs : list X) (acc : A) : M A :=
  match xs with
  | [] => ret acc
  | x :: xs' => acc' ← body acc x; for_each body xs' acc'
  end.

(** [next(pages)] when a page is left: one listing request *)
Definition next_page (bucket : string) (fetch : list event -> page_event)
  : M (option (list s3_object)) :=
  fun s => let r := fetch (trace s) in
           let s' := {| trace := trace s ++ [EvListPage bucket r]; logs := logs s |} in
           match r with
           | Page c => (s', Return c)
           | PageError e => (s', Raise e)
           end.

(** ** Django settings and file objects *)

(** The attributes of [django.conf.settings] the service reads.  The outer
    [None] is an attribute that is not defined; a credential that is defined
    may still be Python's [None]. *)
Record Settings : Type := {
  AWS_ACCESS_KEY_ID : option (option string);
  AWS_SECRET_ACCESS_KEY : option (option string);
  AWS_REGION : option string;
  AWS_S3_BUCKET : option string
}.

(** [settings.<name>]: an undefined attribute raises [AttributeError] *)
Definition settings_attr {A} (name : string) (v : option A) : M A :=
  match v with
  | Some a => ret a
  | None => raise (PyError "AttributeError"
                     ("'Settings' object has no attribute '" +:+ name +:+ "'"))
  end.

(** A binary stream: [BytesIO] or an uploaded file.  [closed_error] is the
    text of the [ValueError] its kind of stream raises once closed: a
    [BytesIO] says [I/O operation on closed file.], a file on disk
    [seek of closed file]. *)
Record FileObj : Type := {
  name : option string;
  closed : bool;
  position : nat;
  data : list Byte.byte;
  closed_error : string
}.

(** [file.seek(0)]: a closed stream raises [ValueError] *)
Definition seek (file : FileObj) (pos : nat) : M FileObj :=
  if closed file then raise (PyError "ValueError" (closed_error file))
  else ret {| name := name file; closed := false; position := pos; data := data file;
              closed_error := closed_error file |}.

(** what a reader gets from the current position to the end *)
Definition read_all (file : FileObj) : list Byte.byte := drop (position file) (data file).

(** ** services/s3_service.py *)

(** The report of [copy_all_files]: the [results] dict. *)
Record failed_file : Type := { key : string; error : string }.

Record Results : Type := {
  success_count : nat;
  failed_files : list failed_file;
  total_processed : nat
}.

Module S3Service.

(** The instance: [self.bucket_name] (the client handle carries no data). *)
Record t : Type := { bucket_name : string }.

Section Methods.

Variable B : Backend.

Definition _test_connection (self : t) : M unit :=
  try_except
    (call (fun h => head_bucket B h (bucket_name self)) (EvHeadBucket (bucket_name self));;
     logger INFO ("Successfully connected to S3 bucket: " +:+ bucket_name self))
    (fun e =>
       match e with
       | ClientError _ error_code _ =>
           if String.eqb error_code "404" then
             logger WARNING ("Bucket " +:+ bucket_name self +:+ " does not exist")
           else if String.eqb error_code "403" then
             logger WARNING ("Access denied to bucket " +:+ bucket_name self
                               +:+ " - check permissions")
           else
             logger WARNING ("Error accessing bucket " +:+ bucket_name self
                               +:+ ": " +:+ str e)
       | _ => logger WARNING ("Could not test S3 connection: " +:+ str e)
       end).

Definition __init__ (settings : Settings) : M t :=
  try_except
    (access_key ← settings_attr "AWS_ACCESS_KEY_ID" (AWS_ACCESS_KEY_ID settings);
     secret_key ← settings_attr "AWS_SECRET_ACCESS_KEY" (AWS_SECRET_ACCESS_KEY settings);
     let region := default "us-east-1" (AWS_REGION settings) in
     call (fun h => boto3_client B h access_key secret_key region)
          (EvClient access_key secret_key region);;
     let self := {| bucket_name := default "jfm02" (AWS_S3_BUCKET settings) |} in
     _test_connection self;;
     mret self)
    (fun e =>
       match e with
       | NoCredentialsError =>
           logger ERROR "AWS credentials not found";;
           raise (Exception "AWS credentials not configured properly")
       | _ => raise e
       end).

Definition content_types : gmap string string :=
  <["jpg" := "image/jpeg"]>
  (<["jpeg" := "image/jpeg"]>
  (<["png" := "image/png"]>
  (<["gif" := "image/gif"]>
  (<["webp" := "image/webp"]>
  (<["bmp" := "image/bmp"]> ∅))))).

Definition extension (filename : string) : string :=
  if Py.contains "." filename
  then Py.last_item (Py.split "." (Py.lower filename))
  else "".

Definition _get_content_type (filename : string) : string :=
  default "application/octet-stream" (content_types !! extension filename).

Definition upload_file (self : t) (file : FileObj) (key : string) : M bool :=
  try_except
    (file ← seek file 0;
     logger INFO ("Uploading " +:+ key +:+ " to bucket " +:+ bucket_name self);;
     let content_type := _get_content_type (default key (name file)) in
     call (fun h => upload_fileobj B h (bucket_name self) key content_type (read_all file))
          (EvUpload (bucket_name self) key content_type (read_all file));;
     logger INFO ("Successfully uploaded " +:+ key);;
     mret true)
    (fun e =>
       match e with
       | ClientError _ error_code (Some message) =>
           logger ERROR ("S3 ClientError: " +:+ error_code +:+ " - " +:+ message);;
           mret false
       | ClientError _ error_code None => raise (PyError "KeyError" "'Message'")
       | _ =>
           logger ERROR ("Unexpected error uploading " +:+ key +:+ ": " +:+ str e);;
           mret false
       end).

Definition delete_file (self : t) (key : string) : M bool :=
  try_except
    (call (fun h => delete_object B h (bucket_name self) key)
          (EvDelete (bucket_name self) key);;
     logger INFO ("Successfully deleted " +:+ key +:+ " from " +:+ bucket_name self);;
     mret true)
    (fun e =>
       match e with
       | ClientError _ _ _ =>
           logger ERROR ("Failed to delete " +:+ key +:+ ": " +:+ str e);;
           mret false
       | _ =>
           logger ERROR ("Unexpected error deleting " +:+ key +:+ ": " +:+ str e);;
           mret false
       end).

Definition get_file_url (self : t) (key : string) : string :=
  "https://" +:+ bucket_name self +:+ ".s3.amazonaws.com/" +:+ key.

(** The body of the loop over [page['Contents']]. *)
Definition copy_one (source_bucket target_bucket : string)
    (results : Results) (obj : s3_object) : M Results :=
  let key := Key obj in
  let results := {| success_count := success_count results;
                    failed_files := failed_files results;
                    total_processed := total_processed results + 1 |} in
  try_except
    (call (fun h => copy_object B h source_bucket key target_bucket key "public-read")
          (EvCopy source_bucket key target_bucket key "public-read");;
     let results := {| success_count := success_count results + 1;
                       failed_files := failed_files results;
                       total_processed := total_processed results |} in
     logger INFO ("Successfully copied " +:+ key +:+ " from " +:+ source_bucket
                    +:+ " to " +:+ target_bucket);;
     mret results)
    (fun e =>
       match e with
       | ClientError _ _ _ =>
           let error_msg := "Failed to copy " +:+ key +:+ ": " +:+ str e in
           logger ERROR error_msg;;
           mret {| success_count := success_count results;
                   failed_files := failed_files results
                                     ++ [{| key := key; error := str e |}];
                   total_processed := total_processed results |}
       | _ => raise e
       end).

(** The body of the loop over [pages]: fetch the page, skip it when it
    has no ['Contents'], else copy its objects in order. *)
Definition copy_page (source_bucket target_bucket : string)
    (results : Results) (fetch : list event -> page_event) : M Results :=
  page ← next_page source_bucket fetch;
  match page with
  | None => mret results
  | Some contents => for_each (copy_one source_bucket target_bucket) contents results
  end.

Definition copy_all_files (source_bucket target_bucket : string) : M Results :=
  let results := {| success_count := 0; failed_files := []; total_processed := 0 |} in
  try_except
    (let pages := paginate B source_bucket in
     results ← for_each (copy_page source_bucket target_bucket) pages results;
     logger INFO ("Backup completed: " +:+ Py.str_int (success_count results) +:+ "/"
                    +:+ Py.str_int (total_processed results) +:+ " files copied");;
     mret results)
    (fun e =>
       match e with
       | ClientError _ _ _ =>
           logger ERROR ("Failed to list objects in source bucket " +:+ source_bucket
                           +:+ ": " +:+ str e);;
           raise (Exception ("Cannot access source bucket: " +:+ str e))
       | _ =>
           logger ERROR ("Unexpected error during backup: " +:+ str e);;
           raise (Exception ("Backup failed: " +:+ str e))
       end).

Definition file_exists (self : t) (key : string) : M bool :=
  try_except
    (call (fun h => head_object B h (bucket_name self) key)
          (EvHeadObject (bucket_name self) key);;
     mret true)
    (fun e =>
       match e with
       | ClientError _ _ _ => mret false
       | _ => raise e
       end).

End Methods.

End S3Service.

(** ** products/forms.py: the validators of [ConfigForm] *)

Module ConfigForm.

(** [self.cleaned_data]: [.get(name)] is [None] for a missing entry *)
Record cleaned_data : Type := {
  bucket_name : option string;
  backup_bucket : option string
}.

Definition bucket_charset_ok (s : string) : bool :=
  Py.isalnum (Py.replace "." "" (Py.replace "-" "" s)).

Definition bucket_length_bad (s : string) : bool :=
  (Py.len s <? 3)%nat || (63 <? Py.len s)%nat.

Definition clean_bucket_name (data : cleaned_data) : result string :=
  match bucket_name data with
  | None => Raise (ValidationError "El nombre del bucket principal es obligatorio.")
  | Some bucket_name =>
      if negb (Py.truthy bucket_name) then
        Raise (ValidationError "El nombre del bucket principal es obligatorio.")
      else if negb (bucket_charset_ok bucket_name) then
        Raise (ValidationError (Py.text
          "El nombre del bucket solo puede contener letras, números, guiones y puntos."))
      else if bucket_length_bad bucket_name then
        Raise (ValidationError
          "El nombre del bucket debe tener entre 3 y 63 caracteres.")
      else Return (Py.lower bucket_name)
  end.

Definition clean_backup_bucket (data : cleaned_data) : result (option string) :=
  match backup_bucket data with
  | None => Return None
  | Some backup_bucket =>
      if Py.truthy backup_bucket then
        if negb (bucket_charset_ok backup_bucket) then
          Raise (ValidationError (Py.text
            "El nombre del bucket de backup solo puede contener letras, números, guiones y puntos."))
        else if bucket_length_bad backup_bucket then
          Raise (ValidationError
            "El nombre del bucket de backup debe tener entre 3 y 63 caracteres.")
        else Return (Some (Py.lower backup_bucket))
      else Return (Some backup_bucket)
  end.

(** The form-level [clean], on the data the field validators left. *)
Definition clean (data : cleaned_data) : result cleaned_data :=
  match bucket_name data, backup_bucket data with
  | Some primary, Some backup =>
      if Py.truthy primary && Py.truthy backup && String.eqb primary backup then
        Raise (ValidationError
          "El bucket principal y el bucket de backup no pueden ser el mismo.")
      else Return data
  | _, _ => Return data
  end.

End ConfigForm.

(** ** products/views.py: the backup view *)

(** A row of the [Config] model; a blank [backup_bucket] is the empty string. *)
Record Config : Type := { bucket_name : string; backup_bucket : string }.

(** The JSON bodies the view answers with: [{'success': False, 'error': ..}]
    or [{'success': True, 'message': .., 'results': ..}], the latter with
    ['warning': True] when some copies failed. *)
Inductive JsonResponse : Type :=
| JsonFailure (error : string)
| JsonSuccess (warning : bool) (message : string) (results : Results).

Definition lift {A} (r : result A) : M A := fun s => (s, r).

Section Views.

Variable B : Backend.
Variable settings : Settings.

(** [first] is what [Config.objects.first()] gives: a row, [None], or a
    database error. *)
Definition admin_backup (method : string) (first : result (option Config))
  : M JsonResponse :=
  if String.eqb method "POST" then
    try_except
      (config ← lift first;
       match config with
       | None => mret (JsonFailure (Py.text "No se encontró configuración del sistema"))
       | Some config =>
           if negb (Py.truthy (backup_bucket config)) then
             mret (JsonFailure "No se ha configurado un bucket de backup")
           else
             s3_service ← S3Service.__init__ B settings;
             results ← S3Service.copy_all_files B (bucket_name config) (backup_bucket config);
             match failed_files results with
             | _ :: _ =>
                 mret (JsonSuccess true
                   ("Backup completado con advertencias: "
                      +:+ Py.str_int (success_count results) +:+ "/"
                      +:+ Py.str_int (total_processed results) +:+ " archivos copiados")
                   results)
             | [] =>
                 mret (JsonSuccess false
                   ("Backup completado exitosamente: "
                      +:+ Py.str_int (success_count results) +:+ " archivos copiados")
                   results)
             end
       end)
      (fun e => mret (JsonFailure ("Error durante el backup: " +:+ str e)))
  else mret (JsonFailure (Py.text "Método no permitido")).

End Views.

(** ** What a trace shows *)

Module Trace.

(** the exception that ends a backup run at this event, if any: a failed
    page fetch, or a copy that failed with something else than a
    [ClientError] *)
Definition fatal_exn (ev : event) : option exn :=
  match ev with
  | EvListPage _ (PageError e) => Some e
  | EvCopy _ _ _ _ _ (Some (ClientError _ _ _)) => None
  | EvCopy _ _ _ _ _ (Some e) => Some e
  | _ => None
  end.

(** an event that lets the run go on *)
Definition quiet (ev : event) : Prop := fatal_exn ev = None.

(** the keys of the copy requests, in order *)
Definition copied_keys (evs : list event) : list string :=
  omap (fun ev => match ev with
                  | EvCopy _ k _ _ _ _ => Some k
                  | _ => None
                  end) evs.

(** the copy requests the backend confirmed *)
Definition copy_successes (evs : list event) : list string :=
  omap (fun ev => match ev with
                  | EvCopy _ k _ _ _ None => Some k
                  | _ => None
                  end) evs.

(** the copy requests the backend refused, with [str] of the error *)
Definition copy_failures (evs : list event) : list failed_file :=
  omap (fun ev => match ev with
                  | EvCopy _ k _ _ _ (Some e) => Some {| key := k; error := str e |}
                  | _ => None
                  end) evs.

(** the keys the listing pages delivered, in listing order *)
Definition listed_keys (evs : list event) : list string :=
  mjoin (omap (fun ev => match ev with
                         | EvListPage _ (Page (Some contents)) => Some (map Key contents)
                         | _ => None
                         end) evs).

(** the answers to the listing requests, in order *)
Definition page_answers (evs : list event) : list page_event :=
  omap (fun ev => match ev with
                  | EvListPage _ r => Some r
                  | _ => None
                  end) evs.

(** the report that starts from [r] and accounts for the copy requests
    of [evs] *)
Definition report_after (r : Results) (evs : list event) : Results :=
  {| success_count := success_count r + List.length (copy_successes evs);
     failed_files := failed_files r ++ copy_failures evs;
     total_processed := total_processed r + List.length (copied_keys evs) |}.

(** a copy of [key] from [source] to [target] under the same key, with the
    canned ACL [acl] *)
Definition is_copy (source target acl : string) (ev : event) : Prop :=
  match ev with
  | EvCopy sb sk db dk a _ => sb = source /\ db = target /\ dk = sk /\ a = acl
  | _ => True
  end.

End Trace.

(** ** Scripted backends and inputs for concrete runs *)

Module Scenario.

Definition access_denied (operation : string) : exn :=
  ClientError operation "AccessDenied" (Some "Access Denied").

Definition unreachable : exn :=
  PyError "EndpointConnectionError"
    "Could not connect to the endpoint URL: https://jfm02.s3.amazonaws.com/".

(** A backend that answers by table, whatever happened before: [probe] to
    [head_bucket], [on_key k] to a request on the object [k], and the
    listing delivers [pages]. *)
Definition scripted (probe : option exn) (on_key : string -> option exn)
    (pages : list page_event) : Backend :=
  {| boto3_client := fun _ _ _ _ => None;
     head_bucket := fun _ _ => probe;
     head_object := fun _ _ k => on_key k;
     upload_fileobj := fun _ _ k _ _ => on_key k;
     delete_object := fun _ _ k => on_key k;
     copy_object := fun _ _ k _ _ _ => on_key k;
     paginate := fun _ => map (fun p _ => p) pages |}.

Definition fails_on (bad : string) (e : exn) (k : string) : option exn :=
  if String.eqb k bad then Some e else None.

Definition three_objects : list page_event :=
  [Page (Some [{| Key := "a.png" |}; {| Key := "b.png" |}]);
   Page None;
   Page (Some [{| Key := "c.png" |}])].

Definition configured : Settings :=
  {| AWS_ACCESS_KEY_ID := Some (Some "AKIAEXAMPLE");
     AWS_SECRET_ACCESS_KEY := Some (Some "secret");
     AWS_REGION := None;
     AWS_S3_BUCKET := None |}.

(** both credentials defined as [None] (an environment variable that is
    not set) *)
Definition no_credentials : Settings :=
  {| AWS_ACCESS_KEY_ID := Some None;
     AWS_SECRET_ACCESS_KEY := Some None;
     AWS_REGION := None;
     AWS_S3_BUCKET := None |}.

Definition nothing_fails : string -> option exn := fun _ => None.

(** three objects on two pages; the copy of [b.png] is refused *)
Definition one_denied : Backend :=
  scripted None (fails_on "b.png" (access_denied "CopyObject")) three_objects.

(** the same listing; the copy of [b.png] cannot reach the endpoint *)
Definition one_unreachable : Backend :=
  scripted None (fails_on "b.png" unreachable) three_objects.

(** the second page of the listing is refused *)
Definition listing_denied : Backend :=
  scripted None nothing_fails
    [Page (Some [{| Key := "a.png" |}]); PageError (access_denied "ListObjectsV2")].

(** one object, nothing fails *)
Definition healthy : Backend :=
  scripted None nothing_fails [Page (Some [{| Key := "a.png" |}])].

(** the bucket probe finds no credentials to sign its request with *)
Definition probe_without_credentials : Backend :=
  scripted (Some NoCredentialsError) nothing_fails [].

(** requests on objects cannot reach the endpoint *)
Definition endpoint_down : Backend :=
  scripted None (fun _ => Some unreachable) [].

Definition stream (name : option string) : FileObj :=
  {| name := name; closed := false; position := 0; data := [Byte.x89; Byte.x50];
     closed_error := "I/O operation on closed file." |}.

Definition service : S3Service.t := {| S3Service.bucket_name := "jfm02" |}.

(** the backup bucket is the primary bucket *)
Definition same_bucket : Config := {| bucket_name := "jfm02"; backup_bucket := "jfm02" |}.

(** no backup bucket *)
Definition no_backup : Config := {| bucket_name := "jfm02"; backup_bucket := "" |}.

Definition form (primary : string) : ConfigForm.cleaned_data :=
  {| ConfigForm.bucket_name := Some primary; ConfigForm.backup_bucket := None |}.

End Scenario.

(** ** os.path.splitext, for POSIX paths *)

Module OsPath.

(** [s.rpartition(c)] when [c] occurs: the text before and after the last
    occurrence *)
Fixpoint rsplit (c : ascii) (s : string) : option (string * string) :=
  match s with
  | EmptyString => None
  | String d s' =>
      match rsplit c s' with
      | Some (before, after) => Some (String d before, after)
      | None => if Ascii.eqb d c then Some (EmptyString, s') else None
      end
  end.

(** the file-name part of the text before the last dot: what follows the
    last slash *)
Definition after_last_sep (root : string) : string :=
  match rsplit "/" root with
  | Some (_, file) => file
  | None => root
  end.

(** [os.path.splitext(p)]: the extension starts at the last dot, provided
    the dot comes after the last slash and some character of the file name
    before it is not a dot; otherwise there is no extension. *)
Definition splitext (p : string) : string * string :=
  match rsplit "." p with
  | None => (p, "")
  | Some (root, after) =>
      if Py.contains "/" after then (p, "")
      else if Py.all_chars (Ascii.eqb ".") (after_last_sep root) then (p, "")
      else (root, String "." after)
  end.

End OsPath.

(** ** products/forms.py: the image validator of [ProductForm] *)

Module ProductForm.

(** An uploaded image as the validator reads it: [image.name],
    [image.content_type] when the object has the attribute, [image.size]. *)
Record Image : Type := {
  image_name : string;
  content_type : option string;
  size : N
}.

(** [", ".join(l)] *)
Fixpoint join (sep : string) (l : list string) : string :=
  match l with
  | [] => ""
  | [x] => x
  | x :: rest => x +:+ sep +:+ join sep rest
  end.

Definition valid_extensions : list string := [".jpg"; ".jpeg"; ".png"; ".gif"; ".webp"].

Definition valid_mime_types : list string :=
  ["image/jpeg"; "image/jpg"; "image/png"; "image/gif"; "image/webp"].

Definition max_size : N := 5 * 1024 * 1024.

(** [x in l] on strings *)
Definition mem (x : string) (l : list string) : bool := existsb (String.eqb x) l.

(** [image] is [self.cleaned_data.get('image')]; a file object is true when
    its name is not empty. *)
Definition clean_image (image : option Image) : result (option Image) :=
  match image with
  | None => Return None
  | Some img =>
      if Py.truthy (image_name img) then
        let ext := Py.lower (OsPath.splitext (image_name img)).2 in
        if negb (mem ext valid_extensions) then
          Raise (ValidationError
                   (Py.text "Tipo de archivo no válido. Solo se permiten: "
                      +:+ join ", " valid_extensions))
        else if match content_type img with
                | Some ct => negb (mem ct valid_mime_types)
                | None => false
                end then
          Raise (ValidationError (Py.text "El archivo no es una imagen válida."))
        else if (max_size <? size img)%N then
          Raise (ValidationError
                   (Py.text "El archivo es demasiado grande. Tamaño máximo: 5MB"))
        else Return (Some img)
      else Return (Some img)
  end.

End ProductForm.

(** ** products/views.py: images and products *)

(** A row of the [Product] model as the views read it: [product.name] and
    [product.image.name], empty when the product has no image. *)
Module Product.

Record t : Type := { name : string; image : string }.

End Product.

(** The flash messages of [django.contrib.messages]. *)
Inductive message_level : Type := MsgSuccess | MsgWarning | MsgError.

(** What a view answers with. *)
Inductive HttpResponse : Type :=
| Redirect (to : string)
| Render (template : string) (product : Product.t) (image_url : option string).

(** What a view has done: the storage calls and logs, the flash messages,
    and whether the product row has been deleted. *)
Record world : Type := {
  storage : state;
  flash : list (message_level * string);
  row_deleted : bool
}.

(** Views run in the same kind of monad, over [world]. *)
Definition V (A : Type) : Type := world -> world * result A.

Definition vret {A} (a : A) : V A := fun w => (w, Return a).

Definition vbind {A B} (m : V A) (k : A -> V B) : V B :=
  fun w => match m w with
           | (w', Return a) => k a w'
           | (w', Raise e) => (w', Raise e)
           end.

Definition vtry_except {A} (m : V A) (h : exn -> V A) : V A :=
  fun w => match m w with
           | (w', Return a) => (w', Return a)
           | (w', Raise e) => h e w'
           end.

#[global] Instance V_ret : MRet V := @vret.
#[global] Instance V_bind : MBind V := fun A B k m => vbind m k.

(** a method of the storage service called from a view *)
Definition on_storage {A} (m : M A) : V A :=
  fun w => let (s', r) := m (storage w) in
           ({| storage := s'; flash := flash w; row_deleted := row_deleted w |}, r).

(** [messages.<level>(request, text)] *)
Definition message (lv : message_level) (text : string) : V unit :=
  fun w => ({| storage := storage w; flash := flash w ++ [(lv, text)];
               row_deleted := row_deleted w |}, Return tt).

(** [product.delete()], answered by the database *)
Definition delete_row (answer : option exn) : V unit :=
  fun w => match answer with
           | None => ({| storage := storage w; flash := flash w; row_deleted := true |},
                      Return tt)
           | Some e => (w, Raise e)
           end.

(** the double quote character *)
Definition dquote : string := String (ascii_of_nat 34) EmptyString.

Section ProductViews.

Variable B : Backend.
Variable settings : Settings.

(** [image_file.name]: an object without the attribute raises *)
Definition file_name (file : FileObj) : M string :=
  match name file with
  | Some n => ret n
  | None => raise (PyError "AttributeError" "object has no attribute 'name'")
  end.

(** [fresh_uuid] is [str(uuid.uuid4())].  The result is the tuple the view
    gets, with the product as the call leaves it. *)
Definition handle_image_upload (fresh_uuid : string) (image_file : FileObj)
    (product : Product.t) : M ((bool * string * option string) * Product.t) :=
  try_except
    (original ← file_name image_file;
     let file_extension := (OsPath.splitext original).2 in
     let unique_filename := "products/" +:+ fresh_uuid +:+ file_extension in
     image_file ← seek image_file 0;
     let file_content := read_all image_file in
     let file_buffer := {| name := Some original; closed := false; position := 0;
                           data := file_content;
                           closed_error := "I/O operation on closed file." |} in
     s3_service ← S3Service.__init__ B settings;
     upload_success ← S3Service.upload_file B s3_service file_buffer unique_filename;
     if upload_success : bool then
       mret ((true, "S3", None),
             {| Product.name := Product.name product; Product.image := unique_filename |})
     else
       mret ((false, "S3_upload_failed",
              Some "No se pudo subir la imagen a S3. Verifica las credenciales y permisos."),
             product))
    (fun e => mret ((false, "S3_error", Some ("Error de S3: " +:+ str e)), product)).

Definition get_image_url (product : Product.t) : M (option string) :=
  if negb (Py.truthy (Product.image product)) then mret None
  else
    try_except
      (s3_service ← S3Service.__init__ B settings;
       mret (Some (S3Service.get_file_url s3_service (Product.image product))))
      (fun _ => mret None).

(** [found] is the row [get_object_or_404] looks up, [db_delete] what the
    database answers to [product.delete()]. *)
Definition product_delete (method : string) (found : option Product.t)
    (db_delete : option exn) : V HttpResponse :=
  match found with
  | None => fun w => (w, Raise (PyError "Http404" "No Product matches the given query."))
  | Some product =>
      if String.eqb method "POST" then
        vtry_except
          ((if Py.truthy (Product.image product) then
              s3_service ← on_storage (S3Service.__init__ B settings);
              delete_success ← on_storage
                                 (S3Service.delete_file B s3_service (Product.image product));
              if negb delete_success then
                message MsgWarning
                  ("Producto " +:+ dquote +:+ Product.name product +:+ dquote
                     +:+ " eliminado, pero hubo un problema al eliminar la imagen de S3.")
              else mret tt
            else mret tt);;
           let product_name := Product.name product in
           delete_row db_delete;;
           message MsgSuccess
             ("Producto " +:+ dquote +:+ product_name +:+ dquote
                +:+ " eliminado exitosamente.");;
           mret (Redirect "product_list"))
          (fun e =>
             message MsgError ("Error al eliminar el producto: " +:+ str e);;
             mret (Redirect "product_list"))
      else
        image_url ← on_storage (get_image_url product);
        mret (Render "product_confirm_delete.html" product image_url)
  end.

End ProductViews.

(** ** More of what a trace shows *)

Module Footprint.

(** the requests a backup run makes: a listing page of [source], or a copy
    from [source] to [target] under the same key *)
Definition of_backup (source target : string) (ev : event) : Prop :=
  match ev with
  | EvListPage b _ => b = source
  | EvCopy sb sk db dk _ _ => sb = source /\ db = target /\ dk = sk
  | _ => False
  end.

(** the requests on objects: everything but building the client and
    probing the bucket *)
Definition object_requests (evs : list event) : list event :=
  omap (fun ev => match ev with
                  | EvClient _ _ _ _ | EvHeadBucket _ _ => None
                  | _ => Some ev
                  end) evs.

(** the bucket probes *)
Definition probes (evs : list event) : list string :=
  omap (fun ev => match ev with
                  | EvHeadBucket b _ => Some b
                  | _ => None
                  end) evs.

End Footprint.

Module Scenario2.

(** the bucket has no objects: one page without ['Contents'] *)
Definition empty_bucket : Backend :=
  Scenario.scripted None Scenario.nothing_fails [Page None].

(** requests on objects are refused *)
Definition all_denied : Backend :=
  Scenario.scripted None (fun _ => Some (Scenario.access_denied "HeadObject")) [].

(** the client factory finds no credentials *)
Definition factory_without_credentials : Backend :=
  {| boto3_client := fun _ _ _ _ => Some NoCredentialsError;
     head_bucket := fun _ _ => None;
     head_object := fun _ _ _ => None;
     upload_fileobj := fun _ _ _ _ _ => None;
     delete_object := fun _ _ _ => None;
     copy_object := fun _ _ _ _ _ _ => None;
     paginate := fun _ => [] |}.

(** requests on objects fail with an error response that has a code but no
    message *)
Definition upload_without_message : Backend :=
  Scenario.scripted None (fun _ => Some (ClientError "PutObject" "InternalError" None)) [].

(** the bucket probe is refused *)
Definition probe_denied : Backend :=
  Scenario.scripted (Some (ClientError "HeadBucket" "403" (Some "Forbidden")))
    Scenario.nothing_fails [].

(** [AWS_SECRET_ACCESS_KEY] is not defined *)
Definition half_configured : Settings :=
  {| AWS_ACCESS_KEY_ID := Some (Some "AKIAEXAMPLE");
     AWS_SECRET_ACCESS_KEY := None;
     AWS_REGION := None;
     AWS_S3_BUCKET := None |}.

Definition photo : ProductForm.Image :=
  {| ProductForm.image_name := "Photo.JPG";
     ProductForm.content_type := Some "image/jpeg";
     ProductForm.size := 5 * 1024 * 1024 |}.

Definition lamp : Product.t :=
  {| Product.name := "lamp"; Product.image := "products/1.png" |}.

(** an upload kept on disk, already closed *)
Definition closed_upload : FileObj :=
  {| name := Some "a.png"; closed := true; position := 0; data := [];
     closed_error := "seek of closed file" |}.


(** three times the fraction one half, code point 189 *)
Definition three_halves : string := Py.text "½½½".

Definition fresh_world : world :=
  {| storage := initial; flash := []; row_deleted := false |}.

End Scenario2.

(** * Properties *)

(** ** Traces *)

Import Trace.

Ltac run_step :=
  unfold mbind, M_bind, mret, M_ret, bind, ret, raise, try_except, call, logger,
    next_page, lift in *; simpl in *.

Lemma copied_keys_app a b : copied_keys (a ++ b) = copied_keys a ++ copied_keys b.
Proof. apply omap_app. Qed.

Lemma copy_successes_app a b : copy_successes (a ++ b) = copy_successes a ++ copy_successes b.
Proof. apply omap_app. Qed.

Lemma copy_failures_app a b : copy_failures (a ++ b) = copy_failures a ++ copy_failures b.
Proof. apply omap_app. Qed.

Lemma page_answers_app a b : page_answers (a ++ b) = page_answers a ++ page_answers b.
Proof. apply omap_app. Qed.

Lemma listed_keys_app a b : listed_keys (a ++ b) = listed_keys a ++ listed_keys b.
Proof. unfold listed_keys. by rewrite omap_app, join_app. Qed.

Lemma listed_keys_no_pages evs : page_answers evs = [] -> listed_keys evs = [].
Proof.
  induction evs as [|ev evs IH]; [done|].
  destruct ev; simpl; try done; apply IH.
Qed.

Lemma report_after_nil r : report_after r [] = r.
Proof.
  destruct r as [s f t]. unfold report_after. simpl.
  by rewrite !Nat.add_0_r, app_nil_r.
Qed.

Lemma report_after_app r a b :
  report_after r (a ++ b) = report_after (report_after r a) b.
Proof.
  unfold report_after. simpl.
  rewrite copy_successes_app, copy_failures_app, copied_keys_app, !length_app.
  f_equal; [lia | by rewrite app_assoc | lia].
Qed.

(** Every copy request either succeeded or failed. *)
Lemma copied_keys_split evs :
  List.length (copied_keys evs) = List.length (copy_successes evs) + List.length (copy_failures evs).
Proof.
  induction evs as [|ev evs IH]; [done|].
  destruct ev as [| | | | |sb sk db dk a [e|]|]; simpl; lia.
Qed.

(** The report built from a trace is balanced when its start is. *)
Lemma report_after_balanced r evs :
  total_processed r = success_count r + List.length (failed_files r) ->
  total_processed (report_after r evs)
  = success_count (report_after r evs) + List.length (failed_files (report_after r evs)).
Proof.
  intros H. unfold report_after. simpl.
  rewrite length_app, copied_keys_split. lia.
Qed.

(** ** The backup loop *)

Section Replication.

Variable B : Backend.
Variables source target : string.

(** One object: one copy request; the report accounts for it unless the
    request failed with something else than a [ClientError]. *)
Lemma copy_one_inv r obj st st' res :
  S3Service.copy_one B source target r obj st = (st', res) ->
  exists resp,
    let ev := EvCopy source (Key obj) target (Key obj) "public-read" resp in
    trace st' = trace st ++ [ev] /\
    match fatal_exn ev with
    | None => res = Return (report_after r [ev])
    | Some e => res = Raise e
    end.
Proof.
  unfold S3Service.copy_one. run_step.
  destruct (copy_object B (trace st) source (Key obj) target (Key obj) "public-read")
    as [[op code msg| |cls msg]|] eqn:E; simpl; intros [= <- <-];
    eexists; (split; [simpl; reflexivity|]); simpl; try reflexivity.
  all: unfold report_after; simpl.
  all: rewrite ?Nat.add_0_r, ?app_nil_r; reflexivity.
Qed.

(** The loop over the objects of one page. *)
Lemma copy_objects_inv objs : forall r st st' res,
  for_each (S3Service.copy_one B source target) objs r st = (st', res) ->
  exists new,
    trace st' = trace st ++ new /\
    Forall (is_copy source target "public-read") new /\
    page_answers new = [] /\
    match res with
    | Return r' =>
        r' = report_after r new /\ copied_keys new = map Key objs /\ Forall quiet new
    | Raise e =>
        exists pre last, new = pre ++ [last] /\ Forall quiet pre /\ fatal_exn last = Some e
    end.
Proof.
  induction objs as [|obj objs IH]; intros r st st' res; simpl.
  - intros [= <- <-]. exists []. rewrite app_nil_r, report_after_nil.
    repeat split; constructor.
  - unfold mbind, M_bind, bind.
    destruct (S3Service.copy_one B source target r obj st) as [st1 res1] eqn:E1.
    apply copy_one_inv in E1 as (resp & E1). cbv zeta in E1. destruct E1 as [Htr Hres].
    set (ev := EvCopy source (Key obj) target (Key obj) "public-read" resp) in *.
    assert (Hshape : is_copy source target "public-read" ev) by (by repeat split).
    destruct (fatal_exn ev) as [e|] eqn:Hf; rewrite Hres; clear Hres.
    + intros [= <- <-]. exists [ev]. repeat split; [done|by constructor|].
      exists [], ev. repeat split; [constructor|done].
    + intros Hrest. apply IH in Hrest as (new & Htr' & Hshape' & Hpages & Hres').
      exists (ev :: new). rewrite Htr', Htr, <- app_assoc.
      repeat split; [by constructor|done|].
      destruct res as [r'|e].
      * destruct Hres' as (-> & Hkeys & Hquiet).
        repeat split.
        -- by rewrite <- report_after_app.
        -- simpl. by rewrite Hkeys.
        -- by constructor.
      * destruct Hres' as (pre & last & -> & Hquiet & Hlast).
        exists (ev :: pre), last. repeat split; [by constructor|done].
Qed.

(** One page: one listing request, then the objects it delivered. *)
Lemma copy_page_inv r fetch st st' res :
  S3Service.copy_page B source target r fetch st = (st', res) ->
  exists new,
    trace st' = trace st ++ new /\
    Forall (is_copy source target "public-read") new /\
    match res with
    | Return r' =>
        r' = report_after r new /\ copied_keys new = listed_keys new /\
        Forall quiet new /\ List.length (page_answers new) = 1
    | Raise e =>
        exists pre last, new = pre ++ [last] /\ Forall quiet pre /\ fatal_exn last = Some e
    end.
Proof.
  unfold S3Service.copy_page, mbind, M_bind, bind, next_page.
  destruct (fetch (trace st)) as [[contents|]|e] eqn:Hfetch.
  - set (st1 := {| trace := _; logs := _ |}).
    intros Hobjs. apply copy_objects_inv in Hobjs as (new & Htr & Hshape & Hpages & Hres).
    set (ev := EvListPage source (Page (Some contents))) in *.
    exists (ev :: new). simpl in Htr. rewrite Htr, <- app_assoc.
    repeat split; [by constructor|].
    destruct res as [r'|e].
    + destruct Hres as (-> & Hkeys & Hquiet).
      subst ev. repeat split; [ |by constructor| ].
      * change (copied_keys new = map Key contents ++ listed_keys new).
        by rewrite (listed_keys_no_pages new Hpages), app_nil_r.
      * simpl. by rewrite Hpages.
    + destruct Hres as (pre & last & -> & Hquiet & Hlast).
      exists (ev :: pre), last. repeat split; [by constructor|done].
  - intros [= <- <-]. exists [EvListPage source (Page None)].
    split_and!; [done|by repeat constructor| |done|by repeat constructor|done].
    exact (eq_sym (report_after_nil r)).
  - intros [= <- <-]. exists [EvListPage source (PageError e)].
    split_and!; [done|by repeat constructor|].
    exists [], (EvListPage source (PageError e)). split_and!; [done|constructor|done].
Qed.

(** The loop over the pages. *)
Lemma copy_pages_inv pages : forall r st st' res,
  for_each (S3Service.copy_page B source target) pages r st = (st', res) ->
  exists new,
    trace st' = trace st ++ new /\
    Forall (is_copy source target "public-read") new /\
    match res with
    | Return r' =>
        r' = report_after r new /\ copied_keys new = listed_keys new /\
        Forall quiet new /\ List.length (page_answers new) = List.length pages
    | Raise e =>
        exists pre last, new = pre ++ [last] /\ Forall quiet pre /\ fatal_exn last = Some e
    end.
Proof.
  induction pages as [|fetch pages IH]; intros r st st' res; simpl.
  - intros [= <- <-]. exists []. rewrite app_nil_r, report_after_nil.
    split_and!; done.
  - unfold mbind, M_bind, bind.
    destruct (S3Service.copy_page B source target r fetch st) as [st1 res1] eqn:E1.
    apply copy_page_inv in E1 as (new1 & Htr1 & Hshape1 & Hres1).
    destruct res1 as [r1|e1].
    + destruct Hres1 as (-> & Hkeys1 & Hquiet1 & Hlen1).
      intros Hrest. apply IH in Hrest as (new2 & Htr2 & Hshape2 & Hres2).
      exists (new1 ++ new2). rewrite Htr2, Htr1, <- app_assoc.
      split_and!; [done|by apply Forall_app|].
      destruct res as [r'|e].
      * destruct Hres2 as (-> & Hkeys2 & Hquiet2 & Hlen2).
        rewrite report_after_app, copied_keys_app, listed_keys_app, page_answers_app,
          length_app, Hkeys1, Hkeys2, Hlen1, Hlen2.
        split_and!; [done|done|by apply Forall_app|done].
      * destruct Hres2 as (pre & last & -> & Hquiet2 & Hlast).
        exists (new1 ++ pre), last. rewrite app_assoc.
        split_and!; [done|by apply Forall_app|done].
    + intros [= <- <-]. exists new1. done.
Qed.

(** The whole run is the page loop; an exception that leaves the loop is
    logged and replaced by a generic one. *)
Lemma copy_all_files_inv st st' res :
  S3Service.copy_all_files B source target st = (st', res) ->
  exists st1 res1,
    for_each (S3Service.copy_page B source target) (paginate B source)
      {| success_count := 0; failed_files := []; total_processed := 0 |} st = (st1, res1) /\
    trace st' = trace st1 /\
    res = match res1 with
          | Return r => Return r
          | Raise e =>
              Raise (Exception
                (match e with
                 | ClientError _ _ _ => "Cannot access source bucket: "
                 | _ => "Backup failed: "
                 end +:+ str e))
          end.
Proof.
  unfold S3Service.copy_all_files. run_step.
  destruct (for_each _ _ _ st) as [st1 [r|e]] eqn:E.
  - intros [= <- <-]. by exists st1, (Return r).
  - exists st1, (Raise e). destruct e; simpl in *; by simplify_eq.
Qed.

(** What a run leaves in the trace and in its result. *)
Lemma copy_all_files_trace st st' res new :
  S3Service.copy_all_files B source target st = (st', res) ->
  trace st' = trace st ++ new ->
  Forall (is_copy source target "public-read") new /\
  match res with
  | Return r =>
      r = report_after {| success_count := 0; failed_files := []; total_processed := 0 |} new /\
      copied_keys new = listed_keys new /\
      Forall quiet new /\
      List.length (page_answers new) = List.length (paginate B source)
  | Raise e' =>
      exists pre last e,
        new = pre ++ [last] /\ Forall quiet pre /\ fatal_exn last = Some e /\
        e' = Exception (match e with
                        | ClientError _ _ _ => "Cannot access source bucket: "
                        | _ => "Backup failed: "
                        end +:+ str e)
  end.
Proof.
  intros Hrun Htr.
  apply copy_all_files_inv in Hrun as (st1 & res1 & Hloop & Htr1 & ->).
  apply copy_pages_inv in Hloop as (new' & Htr' & Hshape & Hres).
  assert (new' = new) as ->.
  { apply (app_inv_head (trace st)). by rewrite <- Htr', <- Htr1. }
  split; [done|].
  destruct res1 as [r|e]; [done|].
  destruct Hres as (pre & last & -> & Hquiet & Hlast).
  by exists pre, last, e.
Qed.

End Replication.

(** ** The report of a backup run *)

(** C1. A backup run that returns a report returns a balanced one:
    [total_processed] is [success_count] plus the number of [failed_files],
    however many copies failed. *)
Theorem report_is_balanced B source target st st' r :
  S3Service.copy_all_files B source target st = (st', Return r) ->
  total_processed r = success_count r + List.length (failed_files r).
Proof.
  intros Hrun.
  assert (exists new, trace st' = trace st ++ new) as [new Htr].
  { apply copy_all_files_inv in Hrun as (st1 & res1 & Hloop & -> & _).
    apply copy_pages_inv in Hloop as (new & Htr & _). by exists new. }
  destruct (copy_all_files_trace _ _ _ _ _ _ _ Hrun Htr) as (_ & -> & _).
  by apply report_after_balanced.
Qed.

Lemma report_is_balanced_witness :
  exists r,
    (S3Service.copy_all_files Scenario.one_denied "jfm02" "jfm02-backup" initial).2 = Return r /\
    List.length (failed_files r) = 1 /\
    total_processed r = success_count r + List.length (failed_files r).
Proof.
  eexists. split_and!; [reflexivity|reflexivity|].
  eapply (report_is_balanced Scenario.one_denied "jfm02" "jfm02-backup" initial).
  reflexivity.
Defined.

(** C4, as the code has it.  In a run in which no listing request fails and
    every copy that fails does so with a [ClientError], the run is not
    aborted: it returns a report, every listed object is attempted exactly
    once and in listing order, every page of the listing is fetched, and
    [failed_files] holds, in order, the key and [str] of the error of every
    copy that failed.  A copy that fails with any other exception ends the
    run with "Backup failed" and no report. *)
Theorem client_errors_are_collected B source target st st' res new :
  S3Service.copy_all_files B source target st = (st', res) ->
  trace st' = trace st ++ new ->
  (Forall quiet new ->
   exists r,
     res = Return r /\
     failed_files r = copy_failures new /\
     copied_keys new = listed_keys new /\
     total_processed r = List.length (listed_keys new) /\
     List.length (page_answers new) = List.length (paginate B source)) /\
  (forall sb sk db dk acl e,
     In (EvCopy sb sk db dk acl (Some e)) new ->
     (forall op code msg, e <> ClientError op code msg) ->
     res = Raise (Exception ("Backup failed: " +:+ str e))).
Proof.
  intros Hrun Htr.
  destruct (copy_all_files_trace _ _ _ _ _ _ _ Hrun Htr) as (_ & Hres).
  split.
  - intros Hquiet. destruct res as [r|e'].
    + destruct Hres as (-> & Hkeys & _ & Hpages).
      eexists. split_and!; [done|done|done| |done].
      simpl. by rewrite Hkeys.
    + destruct Hres as (pre & last & e & -> & _ & Hlast & _).
      apply Forall_app in Hquiet as [_ Hq]. apply Forall_inv in Hq.
      unfold quiet in Hq. congruence.
  - intros sb sk db dk acl e Hin Hother.
    assert (Hfatal : fatal_exn (EvCopy sb sk db dk acl (Some e)) = Some e).
    { destruct e as [op code msg| |]; [by destruct (Hother op code msg)|done|done]. }
    destruct res as [r|e'].
    + destruct Hres as (_ & _ & Hquiet & _).
      rewrite List.Forall_forall in Hquiet. apply Hquiet in Hin.
      unfold quiet in Hin. congruence.
    + destruct Hres as (pre & last & e0 & -> & Hquiet & Hlast & ->).
      apply in_app_or in Hin as [Hin|[->|[]]].
      * rewrite List.Forall_forall in Hquiet. apply Hquiet in Hin.
        unfold quiet in Hin. congruence.
      * rewrite Hfatal in Hlast. injection Hlast as <-.
        destruct e as [op code msg| |]; [by destruct (Hother op code msg)|done|done].
Qed.

Lemma client_errors_are_collected_witness :
  (exists r,
     (S3Service.copy_all_files Scenario.one_denied "jfm02" "jfm02-backup" initial).2
     = Return r /\
     failed_files r
     = [{| key := "b.png"; error := str (Scenario.access_denied "CopyObject") |}] /\
     total_processed r = 3) /\
  (S3Service.copy_all_files Scenario.one_unreachable "jfm02" "jfm02-backup" initial).2
  = Raise (Exception ("Backup failed: " +:+ str Scenario.unreachable)).
Proof.
  split.
  - destruct (client_errors_are_collected Scenario.one_denied "jfm02" "jfm02-backup" initial
                (S3Service.copy_all_files Scenario.one_denied "jfm02" "jfm02-backup" initial).1
                (S3Service.copy_all_files Scenario.one_denied "jfm02" "jfm02-backup" initial).2
                (trace (S3Service.copy_all_files Scenario.one_denied "jfm02" "jfm02-backup"
                          initial).1) eq_refl eq_refl)
      as [Hcollected _].
    destruct Hcollected as (r & Hres & Hfailed & _ & Htotal & _).
    + vm_compute. repeat constructor.
    + exists r. split_and!; [exact Hres|exact Hfailed|exact Htotal].
  - destruct (client_errors_are_collected Scenario.one_unreachable "jfm02" "jfm02-backup"
                initial
                (S3Service.copy_all_files Scenario.one_unreachable "jfm02" "jfm02-backup"
                   initial).1
                (S3Service.copy_all_files Scenario.one_unreachable "jfm02" "jfm02-backup"
                   initial).2
                (trace (S3Service.copy_all_files Scenario.one_unreachable "jfm02"
                          "jfm02-backup" initial).1) eq_refl eq_refl)
      as [_ Haborted].
    apply (Haborted "jfm02" "b.png" "jfm02-backup" "b.png" "public-read" Scenario.unreachable).
    + vm_compute. do 2 right. left. reflexivity.
    + discriminate.
Defined.

(** C4 as stated fails: a copy that fails with an exception that is not a
    [ClientError] (here the endpoint cannot be reached for [b.png]) aborts
    the run: no report, and [c.png] is never attempted. *)
Lemma other_copy_errors_abort :
  let run := S3Service.copy_all_files Scenario.one_unreachable "jfm02" "jfm02-backup" initial in
  listed_keys (trace run.1) = ["a.png"; "b.png"] /\
  copied_keys (trace run.1) = ["a.png"; "b.png"] /\
  copy_failures (trace run.1) = [{| key := "b.png"; error := str Scenario.unreachable |}] /\
  run.2 = Raise (Exception ("Backup failed: " +:+ str Scenario.unreachable)).
Proof. vm_compute. done. Qed.

(** C5. When a listing request of a run fails, the run raises: a
    [ClientError] becomes "Cannot access source bucket", anything else
    "Backup failed"; no report is returned, whatever was copied before. *)
Theorem listing_failure_is_fatal B source target st st' res new bucket e :
  S3Service.copy_all_files B source target st = (st', res) ->
  trace st' = trace st ++ new ->
  In (EvListPage bucket (PageError e)) new ->
  res = Raise (Exception (match e with
                          | ClientError _ _ _ => "Cannot access source bucket: "
                          | _ => "Backup failed: "
                          end +:+ str e)).
Proof.
  intros Hrun Htr Hin.
  destruct (copy_all_files_trace _ _ _ _ _ _ _ Hrun Htr) as (_ & Hres).
  destruct res as [r|e'].
  - destruct Hres as (_ & _ & Hquiet & _).
    rewrite List.Forall_forall in Hquiet. by apply Hquiet in Hin.
  - destruct Hres as (pre & last & e0 & -> & Hquiet & Hlast & ->).
    apply in_app_or in Hin as [Hin|[->|[]]].
    + rewrite List.Forall_forall in Hquiet. by apply Hquiet in Hin.
    + simpl in Hlast. by simplify_eq.
Qed.

Lemma listing_failure_is_fatal_witness :
  (S3Service.copy_all_files Scenario.listing_denied "jfm02" "jfm02-backup" initial).2
  = Raise (Exception ("Cannot access source bucket: "
                        +:+ str (Scenario.access_denied "ListObjectsV2"))).
Proof.
  eapply (listing_failure_is_fatal Scenario.listing_denied "jfm02" "jfm02-backup" initial
            (S3Service.copy_all_files Scenario.listing_denied "jfm02" "jfm02-backup" initial).1
            _ _ "jfm02" (Scenario.access_denied "ListObjectsV2")).
  - reflexivity.
  - reflexivity.
  - vm_compute. right. right. left. reflexivity.
Defined.

(** C10. Every copy request of a backup run reads [source] and writes
    [target] under the same key with the canned ACL [public-read], whatever
    the object is; in particular every object the run copied successfully. *)
Theorem copies_are_public_read B source target st st' res new sb sk db dk acl resp :
  S3Service.copy_all_files B source target st = (st', res) ->
  trace st' = trace st ++ new ->
  In (EvCopy sb sk db dk acl resp) new ->
  acl = "public-read" /\ sb = source /\ db = target /\ dk = sk.
Proof.
  intros Hrun Htr Hin.
  destruct (copy_all_files_trace _ _ _ _ _ _ _ Hrun Htr) as (Hshape & _).
  rewrite List.Forall_forall in Hshape. apply Hshape in Hin. simpl in Hin. tauto.
Qed.

Lemma copies_are_public_read_witness :
  In (EvCopy "jfm02" "c.png" "jfm02-backup" "c.png" "public-read" None)
     (trace (S3Service.copy_all_files Scenario.one_denied "jfm02" "jfm02-backup" initial).1) /\
  ("public-read" = "public-read" /\ "jfm02" = "jfm02" /\ "jfm02-backup" = "jfm02-backup"
   /\ "c.png" = "c.png").
Proof.
  split; [vm_compute; do 5 right; left; reflexivity|].
  eapply (copies_are_public_read Scenario.one_denied "jfm02" "jfm02-backup" initial
            (S3Service.copy_all_files Scenario.one_denied "jfm02" "jfm02-backup" initial).1
            _ _ "jfm02" "c.png" "jfm02-backup" "c.png" "public-read" None).
  - reflexivity.
  - reflexivity.
  - vm_compute. do 5 right. left. reflexivity.
Defined.

(** ** The backup view *)

(** C2 as stated fails for equal buckets: nothing on the backup path
    compares the two names, so a backup bucket equal to the primary one is
    listed and copied onto itself, and the view reports success. *)
Lemma same_bucket_is_listed_and_copied :
  let run := admin_backup Scenario.healthy Scenario.configured "POST"
               (Return (Some Scenario.same_bucket)) initial in
  backup_bucket Scenario.same_bucket = bucket_name Scenario.same_bucket /\
  page_answers (trace run.1) = [Page (Some [{| Key := "a.png" |}])] /\
  In (EvCopy "jfm02" "a.png" "jfm02" "a.png" "public-read" None) (trace run.1) /\
  run.2 = Return (JsonSuccess false "Backup completado exitosamente: 1 archivos copiados"
                    {| success_count := 1; failed_files := []; total_processed := 1 |}).
Proof. vm_compute. split_and!; try done. do 3 right. by left. Qed.

(** C2, as the code has it.  With a blank backup bucket the view answers
    with an error before it builds the storage client: the state is
    unchanged, so no backend call at all has been made, in particular no
    listing call. *)
Theorem unset_backup_bucket_fails_fast B settings config st :
  backup_bucket config = "" ->
  admin_backup B settings "POST" (Return (Some config)) st
  = (st, Return (JsonFailure "No se ha configurado un bucket de backup")).
Proof.
  intros Hblank. unfold admin_backup. run_step. by rewrite Hblank.
Qed.

Lemma unset_backup_bucket_fails_fast_witness :
  admin_backup Scenario.healthy Scenario.configured "POST"
    (Return (Some Scenario.no_backup)) initial
  = (initial, Return (JsonFailure "No se ha configurado un bucket de backup")).
Proof.
  apply (unset_backup_bucket_fails_fast Scenario.healthy Scenario.configured
           Scenario.no_backup initial).
  reflexivity.
Defined.

(** ** Building the client *)

(** Whatever the bucket probe raises, it only logs a warning. *)
Lemma test_connection_never_raises B self st :
  exists lv msg,
    S3Service._test_connection B self st
    = ({| trace := trace st ++ [EvHeadBucket (S3Service.bucket_name self)
                                  (head_bucket B (trace st) (S3Service.bucket_name self))];
          logs := logs st ++ [(lv, msg)] |}, Return tt) /\
    (lv = INFO <-> head_bucket B (trace st) (S3Service.bucket_name self) = None) /\
    (lv = WARNING <-> head_bucket B (trace st) (S3Service.bucket_name self) <> None).
Proof.
  unfold S3Service._test_connection. run_step.
  destruct (head_bucket B (trace st) (S3Service.bucket_name self))
    as [[op code msg| |cls msg]|]; simpl.
  2-4: eexists _, _; split_and!; [reflexivity|done|done].
  destruct (String.eqb code "404"); [|destruct (String.eqb code "403")];
    eexists _, _; (split_and!; [reflexivity|done|done]).
Qed.

(** A [NoCredentialsError] of the client factory is a hard failure. *)
Lemma init_fails_when_factory_has_no_credentials B settings access_key secret_key st :
  AWS_ACCESS_KEY_ID settings = Some access_key ->
  AWS_SECRET_ACCESS_KEY settings = Some secret_key ->
  boto3_client B (trace st) access_key secret_key (default "us-east-1" (AWS_REGION settings))
  = Some NoCredentialsError ->
  (S3Service.__init__ B settings st).2
  = Raise (Exception "AWS credentials not configured properly").
Proof.
  intros Hak Hsk Hclient. unfold S3Service.__init__, settings_attr. run_step.
  by rewrite Hak, Hsk; simpl; rewrite Hclient.
Qed.

(** Once the factory has returned a client, construction succeeds whatever
    the probe answers. *)
Lemma init_succeeds_whatever_the_probe B settings access_key secret_key st :
  AWS_ACCESS_KEY_ID settings = Some access_key ->
  AWS_SECRET_ACCESS_KEY settings = Some secret_key ->
  boto3_client B (trace st) access_key secret_key (default "us-east-1" (AWS_REGION settings))
  = None ->
  (S3Service.__init__ B settings st).2
  = Return {| S3Service.bucket_name := default "jfm02" (AWS_S3_BUCKET settings) |}.
Proof.
  intros Hak Hsk Hclient. unfold S3Service.__init__, settings_attr.
  unfold mbind, M_bind, bind, try_except, call, mret, M_ret, ret.
  rewrite Hak, Hsk. simpl. rewrite Hclient.
  set (self := {| S3Service.bucket_name := _ |}).
  set (st1 := {| trace := _; logs := _ |}).
  destruct (test_connection_never_raises B self st1) as (lv & msg & -> & _). done.
Qed.

(** C3, where the code departs from it.  With no credentials configured the
    factory returns a client and the first signed request, the bucket probe,
    raises [NoCredentialsError]; the probe's catch-all handler turns it into
    a warning, the handler of [__init__] is never reached, and construction
    succeeds. *)
Theorem missing_credentials_only_warn :
  S3Service.__init__ Scenario.probe_without_credentials Scenario.no_credentials initial
  = ({| trace := [EvClient None None "us-east-1" None;
                  EvHeadBucket "jfm02" (Some NoCredentialsError)];
        logs := [(WARNING, "Could not test S3 connection: Unable to locate credentials")] |},
     Return {| S3Service.bucket_name := "jfm02" |}).
Proof. reflexivity. Qed.

(** ** Single-object operations *)

(** What [upload_file] answers: [True] when the backend confirms, [False]
    when the stream cannot be rewound or the backend raises, except that a
    [ClientError] without a message makes the handler itself raise. *)
Lemma upload_file_outcome B self file key st :
  (S3Service.upload_file B self file key st).2
  = if closed file then Return false
    else match upload_fileobj B (trace st) (S3Service.bucket_name self) key
                 (S3Service._get_content_type (default key (name file)))
                 (data file) with
         | None => Return true
         | Some (ClientError _ _ None) => Raise (PyError "KeyError" "'Message'")
         | Some _ => Return false
         end.
Proof.
  unfold S3Service.upload_file, seek, read_all. run_step.
  destruct (closed file); [done|]. simpl.
  by destruct (upload_fileobj B (trace st) _ key _ _) as [[op code [m|]| |]|].
Qed.

(** C6, where the code departs from it.  When the upload fails with a
    [ClientError] whose response has no ['Message'] entry, the
    [except ClientError] handler of [upload_file] raises [KeyError] while it
    formats its log record: the method does not return [False], the
    exception reaches the caller. *)
Theorem upload_file_raises_without_message :
  S3Service.upload_file Scenario2.upload_without_message Scenario.service
    (Scenario.stream None) "a.png" initial
  = ({| trace := [EvUpload "jfm02" "a.png" "image/png" [Byte.x89; Byte.x50]
                    (Some (ClientError "PutObject" "InternalError" None))];
        logs := [(INFO, "Uploading a.png to bucket jfm02")] |},
     Raise (PyError "KeyError" "'Message'")).
Proof. reflexivity. Qed.

(** The same holds for [delete_file]. *)
Lemma delete_file_returns_a_boolean B self key st :
  (S3Service.delete_file B self key st).2
  = Return (match delete_object B (trace st) (S3Service.bucket_name self) key with
            | None => true
            | Some _ => false
            end).
Proof.
  unfold S3Service.delete_file. run_step.
  by destruct (delete_object B (trace st) _ key) as [[| |]|].
Qed.

(** A [ClientError] of the existence probe is [False]. *)
Lemma file_exists_false_on_client_error B self key st op code msg :
  head_object B (trace st) (S3Service.bucket_name self) key = Some (ClientError op code msg) ->
  (S3Service.file_exists B self key st).2 = Return false.
Proof. intros H. unfold S3Service.file_exists. run_step. by rewrite H. Qed.

(** Any other exception of the probe leaves [file_exists]. *)
Lemma file_exists_raises_other_errors B self key st e :
  head_object B (trace st) (S3Service.bucket_name self) key = Some e ->
  (forall op code msg, e <> ClientError op code msg) ->
  (S3Service.file_exists B self key st).2 = Raise e.
Proof.
  intros H Hother. unfold S3Service.file_exists. run_step. rewrite H.
  destruct e as [op code msg| |]; [by destruct (Hother op code msg)|done|done].
Qed.

(** C8, where the code departs from it.  When the existence probe fails with
    an exception that is not a [ClientError] (the endpoint cannot be
    reached), [file_exists] does not return [False]: the exception reaches
    the caller. *)
Theorem file_exists_raises_when_unreachable :
  S3Service.file_exists Scenario.endpoint_down Scenario.service "products/a.png" initial
  = ({| trace := [EvHeadObject "jfm02" "products/a.png" (Some Scenario.unreachable)];
        logs := [] |},
     Raise Scenario.unreachable).
Proof. reflexivity. Qed.

(** ** Content types *)

Lemma lower_char_dot c : Ascii.eqb (Py.lower_char c) "." = Ascii.eqb c ".".
Proof. destruct c as [[] [] [] [] [] [] [] []]; reflexivity. Qed.

Lemma contains_lower s : Py.contains "." (Py.lower s) = Py.contains "." s.
Proof.
  induction s as [|c s IH]; [done|]. simpl. by rewrite lower_char_dot, IH.
Qed.

Lemma lower_app a b : Py.lower (a +:+ b) = Py.lower a +:+ Py.lower b.
Proof. induction a as [|c a IH]; [done|]. simpl. by rewrite IH. Qed.

Lemma contains_app_sep sep a b : Py.contains sep (a +:+ String sep b) = true.
Proof.
  induction a as [|c a IH]; simpl.
  - by rewrite Ascii.eqb_refl.
  - by rewrite IH; destruct (Ascii.eqb c sep).
Qed.

Lemma split_no_sep sep s : Py.contains sep s = false -> Py.split sep s = [s].
Proof.
  induction s as [|c s IH]; [done|]. simpl.
  destruct (Ascii.eqb c sep); [done|]. intros H. by rewrite (IH H).
Qed.

Lemma split_two sep s :
  Py.contains sep s = true -> exists seg x rest, Py.split sep s = seg :: x :: rest.
Proof.
  induction s as [|c s IH]; [done|]. simpl.
  destruct (Ascii.eqb c sep).
  - intros _. destruct s as [|d s]; [by eexists _, _, _|].
    simpl. destruct (Ascii.eqb d sep); [by eexists _, _, _|].
    destruct (Py.split sep s); by eexists _, _, _.
  - intros H. destruct (IH H) as (seg & x & rest & ->). by eexists _, _, _.
Qed.

Lemma last_split_cons sep c s :
  Py.contains sep s = true ->
  Py.last_item (Py.split sep (String c s)) = Py.last_item (Py.split sep s).
Proof.
  intros H. destruct (split_two sep s H) as (seg & x & rest & Hs).
  simpl. rewrite Hs. by destruct (Ascii.eqb c sep).
Qed.

Lemma last_split_app sep a b :
  Py.contains sep b = false ->
  Py.last_item (Py.split sep (a +:+ String sep b)) = b.
Proof.
  intros Hb. induction a as [|c a IH]; simpl.
  - by rewrite Ascii.eqb_refl, (split_no_sep sep b Hb).
  - change (Py.last_item (Py.split sep (String c (a +:+ String sep b))) = b).
    by rewrite last_split_cons, IH; [|apply contains_app_sep].
Qed.

(** The extension is the lower-cased text after the last dot. *)
Lemma extension_after_last_dot stem ext :
  Py.contains "." ext = false ->
  S3Service.extension (stem +:+ "." +:+ ext) = Py.lower ext.
Proof.
  intros Hext. unfold S3Service.extension.
  change ("." +:+ ext) with (String "." ext).
  rewrite contains_app_sep, lower_app.
  change (Py.lower (String "." ext)) with (String "." (Py.lower ext)).
  apply last_split_app. by rewrite contains_lower.
Qed.

Lemma content_types_table e ct :
  S3Service.content_types !! e = Some ct <->
  (e, ct) ∈ [("jpg", "image/jpeg"); ("jpeg", "image/jpeg"); ("png", "image/png");
             ("gif", "image/gif"); ("webp", "image/webp"); ("bmp", "image/bmp")].
Proof.
  change S3Service.content_types with
    (list_to_map (M := gmap string string)
       [("jpg", "image/jpeg"); ("jpeg", "image/jpeg"); ("png", "image/png");
        ("gif", "image/gif"); ("webp", "image/webp"); ("bmp", "image/bmp")]).
  symmetry. apply elem_of_list_to_map. simpl.
  apply (bool_decide_unpack _). by vm_compute.
Qed.

(** C7 as stated fails: the content type is not taken from the key when the
    stream has a name.  A stream named [photo.jpg] uploaded under the key
    [x.png] goes out as [image/jpeg]. *)
Lemma content_type_follows_the_file_name :
  trace (S3Service.upload_file Scenario.healthy Scenario.service
           (Scenario.stream (Some "photo.jpg")) "x.png" initial).1
  = [EvUpload "jfm02" "x.png" "image/jpeg" [Byte.x89; Byte.x50] None] /\
  "image/jpeg" <> "image/png".
Proof. split; [reflexivity|discriminate]. Qed.

(** C7, as the code has it.  [upload_file] sends the content type inferred
    from the stream's name when it has one, and from the key otherwise.  The
    inference looks up the lower-cased text after the last dot in the table
    jpg, jpeg -> image/jpeg, png -> image/png, gif -> image/gif,
    webp -> image/webp, bmp -> image/bmp, and gives application/octet-stream
    for any other extension and for a name without a dot; so [x.png] gives
    image/png and [x.unknownext] gives application/octet-stream. *)
Theorem content_type_inference :
  (forall B self file key st,
     closed file = false ->
     exists resp,
       trace (S3Service.upload_file B self file key st).1
       = trace st ++ [EvUpload (S3Service.bucket_name self) key
                        (S3Service._get_content_type (default key (name file)))
                        (data file) resp]) /\
  (forall stem ext,
     Py.contains "." ext = false ->
     S3Service._get_content_type (stem +:+ "." +:+ ext)
     = default "application/octet-stream" (S3Service.content_types !! Py.lower ext)) /\
  (forall filename,
     Py.contains "." filename = false ->
     S3Service._get_content_type filename = "application/octet-stream") /\
  (forall e ct,
     S3Service.content_types !! e = Some ct <->
     (e, ct) ∈ [("jpg", "image/jpeg"); ("jpeg", "image/jpeg"); ("png", "image/png");
                ("gif", "image/gif"); ("webp", "image/webp"); ("bmp", "image/bmp")]) /\
  S3Service._get_content_type "x.png" = "image/png" /\
  S3Service._get_content_type "x.unknownext" = "application/octet-stream".
Proof.
  split_and!.
  - intros B self file key st Hopen.
    unfold S3Service.upload_file, seek, read_all. run_step. rewrite Hopen. simpl.
    destruct (upload_fileobj B (trace st) _ key _ _) as [[op code [m|]| |]|]; by eexists.
  - intros stem ext Hext. unfold S3Service._get_content_type.
    by rewrite extension_after_last_dot.
  - intros filename Hnodot. unfold S3Service._get_content_type, S3Service.extension.
    by rewrite Hnodot.
  - apply content_types_table.
  - reflexivity.
  - reflexivity.
Qed.

Lemma content_type_inference_witness :
  (exists resp,
     trace (S3Service.upload_file Scenario.healthy Scenario.service
              (Scenario.stream None) "x.png" initial).1
     = [] ++ [EvUpload "jfm02" "x.png" (S3Service._get_content_type "x.png")
                [Byte.x89; Byte.x50] resp]) /\
  S3Service._get_content_type ("photo" +:+ "." +:+ "JPG")
  = default "application/octet-stream" (S3Service.content_types !! Py.lower "JPG") /\
  S3Service._get_content_type "README" = "application/octet-stream".
Proof.
  destruct content_type_inference as (Hsent & Hext & Hnodot & _).
  split_and!.
  - apply (Hsent Scenario.healthy Scenario.service (Scenario.stream None) "x.png" initial).
    reflexivity.
  - apply (Hext "photo" "JPG"). reflexivity.
  - apply (Hnodot "README"). reflexivity.
Defined.

(** ** Bucket names *)

Lemma allowed_after_replace s :
  Py.all_chars Py.is_alnum (Py.replace "." "" (Py.replace "-" "" s)) = true ->
  Py.all_chars (fun c => Py.is_alnum c || Ascii.eqb c "-" || Ascii.eqb c ".") s = true.
Proof.
  induction s as [|c s IH]; [done|]. simpl.
  destruct (Ascii.eqb c "-") eqn:Hdash; simpl.
  - rewrite orb_true_r. exact IH.
  - destruct (Ascii.eqb c ".") eqn:Hdot; simpl.
    + rewrite orb_true_r. exact IH.
    + intros [Hc Hs]%andb_prop. by rewrite Hc, (IH Hs).
Qed.

Lemma charset_ok_allowed s :
  ConfigForm.bucket_charset_ok s = true ->
  Py.all_chars (fun c => Py.is_alnum c || Ascii.eqb c "-" || Ascii.eqb c ".") s = true.
Proof.
  unfold ConfigForm.bucket_charset_ok, Py.isalnum. intros H.
  apply allowed_after_replace. by destruct (Py.replace "." "" _).
Qed.

(** Among the ASCII characters the alphanumeric ones are the letters A-Z and
    a-z and the digits 0-9. *)
Lemma ascii_alnum c :
  Py.is_ascii c = true ->
  Py.is_alnum c = Py.between 65 90 c || Py.between 97 122 c || Py.between 48 57 c.
Proof. destruct c as [[] [] [] [] [] [] [] []]; (reflexivity || discriminate). Qed.

(** C9 as stated fails: the character test of the validator is
    [str.isalnum], which holds of more than letters and digits.  The name
    made of three times the fraction one half (code point 189) is accepted,
    and that character is not a letter, not a digit, not a hyphen and not a
    dot. *)
Lemma fractions_are_accepted :
  Scenario2.three_halves
  = String (ascii_of_nat 189) (String (ascii_of_nat 189) (String (ascii_of_nat 189) "")) /\
  ConfigForm.clean_bucket_name (Scenario.form Scenario2.three_halves)
  = Return Scenario2.three_halves /\
  Py.is_alpha (ascii_of_nat 189) = false /\
  Py.is_digit (ascii_of_nat 189) = false /\
  Ascii.eqb (ascii_of_nat 189) "-" = false /\
  Ascii.eqb (ascii_of_nat 189) "." = false.
Proof. vm_compute. by split_and!. Qed.

(** C9, as the code has it.  The validator of the primary bucket name
    accepts [my-bucket.01], rejects [ab] for its length and [My_Bucket] for
    its underscore, and accepts only names of 3 to 63 characters each of
    which is a hyphen, a dot or alphanumeric in the sense of [str.isalnum];
    what it returns is the name in lower case.  Among the ASCII characters
    the alphanumeric ones are exactly the letters and the digits. *)
Theorem bucket_name_validator :
  ConfigForm.clean_bucket_name (Scenario.form "my-bucket.01") = Return "my-bucket.01" /\
  ConfigForm.clean_bucket_name (Scenario.form "ab")
  = Raise (ValidationError "El nombre del bucket debe tener entre 3 y 63 caracteres.") /\
  ConfigForm.clean_bucket_name (Scenario.form "My_Bucket")
  = Raise (ValidationError (Py.text
   "El nombre del bucket solo puede contener letras, números, guiones y puntos.")) /\
  (forall data accepted,
     ConfigForm.clean_bucket_name data = Return accepted ->
     exists s,
       ConfigForm.bucket_name data = Some s /\
       accepted = Py.lower s /\
       3 <= Py.len s <= 63 /\
       Py.all_chars (fun c => Py.is_alnum c || Ascii.eqb c "-" || Ascii.eqb c ".") s = true) /\
  (forall c,
     Py.is_ascii c = true ->
     Py.is_alnum c = Py.between 65 90 c || Py.between 97 122 c || Py.between 48 57 c).
Proof.
  split_and!; [reflexivity|reflexivity|reflexivity| |apply ascii_alnum].
  intros data accepted. unfold ConfigForm.clean_bucket_name.
  destruct (ConfigForm.bucket_name data) as [s|]; [|done].
  destruct (Py.truthy s); [|done]. simpl.
  destruct (ConfigForm.bucket_charset_ok s) eqn:Hchars; [|done]. simpl.
  destruct (ConfigForm.bucket_length_bad s) eqn:Hlen; [done|].
  intros [= <-]. exists s. split_and!; [done|done| | |by apply charset_ok_allowed].
  all: unfold ConfigForm.bucket_length_bad in Hlen;
    apply orb_false_elim in Hlen as [H3 H63];
    apply Nat.ltb_ge in H3, H63; lia.
Qed.

Lemma bucket_name_validator_witness :
  exists s,
    ConfigForm.bucket_name (Scenario.form "my-bucket.01") = Some s /\
    "my-bucket.01" = Py.lower s /\
    3 <= Py.len s <= 63 /\
    Py.all_chars (fun c => Py.is_alnum c || Ascii.eqb c "-" || Ascii.eqb c ".") s = true.
Proof.
  destruct bucket_name_validator as (_ & _ & _ & Honly & _).
  apply (Honly (Scenario.form "my-bucket.01") "my-bucket.01"). reflexivity.
Defined.


(** * Further properties of the code *)

(** ** More on backup runs *)

Section MoreReplication.

Variable B : Backend.
Variables source target : string.

(** A loop whose body only appends events of some kind only appends events
    of that kind. *)
Lemma for_each_appends {A X} (P : event -> Prop) (body : A -> X -> M A) :
  (forall a x st st' res,
     body a x st = (st', res) -> exists new, trace st' = trace st ++ new /\ Forall P new) ->
  forall xs a st st' res,
    for_each body xs a st = (st', res) ->
    exists new, trace st' = trace st ++ new /\ Forall P new.
Proof.
  intros Hbody. induction xs as [|x xs IH]; intros a st st' res; simpl.
  - intros [= <- <-]. exists []. by rewrite app_nil_r.
  - unfold mbind, M_bind, bind.
    destruct (body a x st) as [st1 [a1|e1]] eqn:E1;
      apply Hbody in E1 as (new1 & Htr1 & HP1).
    + intros Hrest. apply IH in Hrest as (new2 & Htr2 & HP2).
      exists (new1 ++ new2). rewrite Htr2, Htr1, <- app_assoc.
      split; [done|by apply Forall_app].
    + intros [= <- <-]. by exists new1.
Qed.

Lemma copy_page_footprint r fetch st st' res :
  S3Service.copy_page B source target r fetch st = (st', res) ->
  exists new, trace st' = trace st ++ new /\ Forall (Footprint.of_backup source target) new.
Proof.
  unfold S3Service.copy_page, mbind, M_bind, bind, next_page.
  destruct (fetch (trace st)) as [[contents|]|e].
  - intros Hobjs.
    apply (for_each_appends (Footprint.of_backup source target)) in Hobjs
      as (new & Htr & Hnew).
    + exists (EvListPage source (Page (Some contents)) :: new).
      simpl in Htr. rewrite Htr, <- app_assoc. split; [done|by constructor].
    + intros a obj s s' res' Hone.
      apply copy_one_inv in Hone as (resp & Htr' & _).
      eexists. split; [exact Htr'|]. by repeat constructor.
  - intros [= <- <-]. eexists. split; [done|]. by repeat constructor.
  - intros [= <- <-]. eexists. split; [done|]. by repeat constructor.
Qed.

(** The requests of a backup run. *)
Lemma copy_all_files_footprint st st' res new :
  S3Service.copy_all_files B source target st = (st', res) ->
  trace st' = trace st ++ new ->
  Forall (Footprint.of_backup source target) new.
Proof.
  intros Hrun Htr.
  apply copy_all_files_inv in Hrun as (st1 & res1 & Hloop & Htr1 & _).
  apply (for_each_appends (Footprint.of_backup source target)) in Hloop
    as (new' & Htr' & Hnew); [|intros a x s s' r; apply copy_page_footprint].
  assert (new' = new) as ->; [|done].
  apply (app_inv_head (trace st)). by rewrite <- Htr', <- Htr1.
Qed.

(** Pages without objects leave the report as it is and make no copy. *)
Lemma empty_pages_loop pages :
  (forall fetch h, In fetch pages -> fetch h = Page None \/ fetch h = Page (Some [])) ->
  forall r st,
    exists st',
      for_each (S3Service.copy_page B source target) pages r st = (st', Return r) /\
      copied_keys (trace st') = copied_keys (trace st) /\
      List.length (page_answers (trace st'))
      = List.length (page_answers (trace st)) + List.length pages.
Proof.
  induction pages as [|fetch pages IH]; intros Hempty r st; simpl.
  - exists st. split_and!; [done|done|lia].
  - unfold mbind, M_bind, bind.
    assert (exists st1,
              S3Service.copy_page B source target r fetch st = (st1, Return r) /\
              copied_keys (trace st1) = copied_keys (trace st) /\
              List.length (page_answers (trace st1))
              = List.length (page_answers (trace st)) + 1)
      as (st1 & -> & Hkeys1 & Hpages1).
    { unfold S3Service.copy_page, next_page. run_step.
      destruct (Hempty fetch (trace st) (or_introl eq_refl)) as [H|H]; rewrite H; simpl;
        eexists; (split_and!; [reflexivity| |]); simpl;
        rewrite ?copied_keys_app, ?page_answers_app, ?length_app; simpl;
        rewrite ?app_nil_r; done. }
    destruct (IH (fun f h Hin => Hempty f h (or_intror Hin)) r st1)
      as (st' & Hrun & Hkeys & Hpages).
    exists st'. rewrite Hkeys, Hpages, Hkeys1, Hpages1.
    split_and!; [exact Hrun|done|lia].
Qed.

End MoreReplication.

(** X1. When every page of the listing comes without objects (no
    ['Contents'], or an empty one) the run succeeds with the all-zero
    report, after fetching every page and without a single copy request. *)
Theorem empty_bucket_gives_empty_report B source target st :
  (forall fetch h,
     In fetch (paginate B source) -> fetch h = Page None \/ fetch h = Page (Some [])) ->
  exists st',
    S3Service.copy_all_files B source target st
    = (st', Return {| success_count := 0; failed_files := []; total_processed := 0 |}) /\
    copied_keys (trace st') = copied_keys (trace st) /\
    List.length (page_answers (trace st'))
    = List.length (page_answers (trace st)) + List.length (paginate B source).
Proof.
  intros Hempty.
  destruct (empty_pages_loop B source target _ Hempty
              {| success_count := 0; failed_files := []; total_processed := 0 |} st)
    as (st1 & Hloop & Hkeys & Hpages).
  unfold S3Service.copy_all_files. run_step. rewrite Hloop. simpl.
  eexists. split_and!; [reflexivity|done|done].
Qed.

Lemma empty_bucket_gives_empty_report_witness :
  exists st',
    S3Service.copy_all_files Scenario2.empty_bucket "jfm02" "jfm02-backup" initial
    = (st', Return {| success_count := 0; failed_files := []; total_processed := 0 |}) /\
    copied_keys (trace st') = copied_keys (trace initial) /\
    List.length (page_answers (trace st'))
    = List.length (page_answers (trace initial))
      + List.length (paginate Scenario2.empty_bucket "jfm02").
Proof.
  apply (empty_bucket_gives_empty_report Scenario2.empty_bucket "jfm02" "jfm02-backup" initial).
  intros fetch h [<-|[]]. by left.
Defined.

(** X2. A backup run only lists the source bucket and copies from the
    source to the target under the same key: it never uploads, deletes or
    probes, whether it returns or raises. *)
Theorem backup_only_lists_and_copies B source target st st' res new ev :
  S3Service.copy_all_files B source target st = (st', res) ->
  trace st' = trace st ++ new ->
  In ev new ->
  match ev with
  | EvListPage bucket _ => bucket = source
  | EvCopy sb sk db dk _ _ => sb = source /\ db = target /\ dk = sk
  | _ => False
  end.
Proof.
  intros Hrun Htr Hin.
  pose proof (copy_all_files_footprint B source target st st' res new Hrun Htr) as Hall.
  rewrite List.Forall_forall in Hall. exact (Hall ev Hin).
Qed.

Lemma backup_only_lists_and_copies_witness :
  "jfm02" = "jfm02" /\ "jfm02-backup" = "jfm02-backup" /\ "b.png" = "b.png".
Proof.
  apply (backup_only_lists_and_copies Scenario.one_unreachable "jfm02" "jfm02-backup" initial
           (S3Service.copy_all_files Scenario.one_unreachable "jfm02" "jfm02-backup" initial).1
           (S3Service.copy_all_files Scenario.one_unreachable "jfm02" "jfm02-backup" initial).2
           (trace (S3Service.copy_all_files Scenario.one_unreachable "jfm02" "jfm02-backup"
                     initial).1)
           (EvCopy "jfm02" "b.png" "jfm02-backup" "b.png" "public-read"
              (Some Scenario.unreachable))).
  - reflexivity.
  - reflexivity.
  - vm_compute. do 2 right. left. reflexivity.
Defined.

Lemma copy_failures_sublist evs : sublist (map key (copy_failures evs)) (copied_keys evs).
Proof.
  induction evs as [|ev evs IH]; [constructor|].
  destruct ev as [| | | | |sb sk db dk a [e|]|]; simpl; try done.
  - by constructor.
  - by apply sublist_cons.
Qed.

Lemma copy_successes_sublist evs : sublist (copy_successes evs) (copied_keys evs).
Proof.
  induction evs as [|ev evs IH]; [constructor|].
  destruct ev as [| | | | |sb sk db dk a [e|]|]; simpl; try done.
  - by apply sublist_cons.
  - by constructor.
Qed.

(** X3. In the report a run returns, [success_count] is the number of copy
    requests the backend confirmed and [total_processed] the number of
    objects listed; the keys of [failed_files] and the confirmed keys are
    each a subsequence of the listing, in listing order, and every page of
    the listing was fetched. *)
Theorem report_reflects_the_run B source target st st' r new :
  S3Service.copy_all_files B source target st = (st', Return r) ->
  trace st' = trace st ++ new ->
  success_count r = List.length (copy_successes new) /\
  total_processed r = List.length (listed_keys new) /\
  sublist (map key (failed_files r)) (listed_keys new) /\
  sublist (copy_successes new) (listed_keys new) /\
  List.length (page_answers new) = List.length (paginate B source).
Proof.
  intros Hrun Htr.
  destruct (copy_all_files_trace _ _ _ _ _ _ _ Hrun Htr) as (_ & -> & Hkeys & _ & Hpages).
  rewrite <- Hkeys. simpl.
  split_and!; [done|done|apply copy_failures_sublist|apply copy_successes_sublist|done].
Qed.

Lemma report_reflects_the_run_witness :
  exists r new,
    (S3Service.copy_all_files Scenario.one_denied "jfm02" "jfm02-backup" initial).2 = Return r /\
    listed_keys new = ["a.png"; "b.png"; "c.png"] /\
    success_count r = List.length (copy_successes new) /\
    total_processed r = List.length (listed_keys new) /\
    sublist (map key (failed_files r)) (listed_keys new).
Proof.
  eexists _, (trace (S3Service.copy_all_files Scenario.one_denied "jfm02" "jfm02-backup"
                       initial).1).
  split; [reflexivity|]. split; [reflexivity|].
  destruct (report_reflects_the_run Scenario.one_denied "jfm02" "jfm02-backup" initial
              (S3Service.copy_all_files Scenario.one_denied "jfm02" "jfm02-backup" initial).1
              _ _ eq_refl eq_refl) as (Hs & Ht & Hf & _).
  split_and!; [exact Hs|exact Ht|exact Hf].
Defined.

(** ** More on single-object operations *)

(** X4. On a closed stream [upload_file] makes no backend request: it logs
    the error the stream raises and returns [False]. *)
Theorem upload_of_closed_stream B self file key st :
  closed file = true ->
  S3Service.upload_file B self file key st
  = ({| trace := trace st;
        logs := logs st ++ [(ERROR, "Unexpected error uploading " +:+ key
                                      +:+ ": " +:+ closed_error file)] |},
     Return false).
Proof.
  intros Hclosed. unfold S3Service.upload_file, seek. run_step. by rewrite Hclosed.
Qed.

Lemma upload_of_closed_stream_witness :
  S3Service.upload_file Scenario.healthy Scenario.service Scenario2.closed_upload "a.png"
    initial
  = ({| trace := [];
        logs := [(ERROR, "Unexpected error uploading a.png: seek of closed file")] |},
     Return false).
Proof.
  apply (upload_of_closed_stream Scenario.healthy Scenario.service Scenario2.closed_upload
           "a.png" initial).
  reflexivity.
Defined.



(** X6. [delete_file] makes exactly one delete request, on the bucket of
    the service, and never raises: [True] when the backend confirms,
    [False] for any exception. *)
Theorem delete_file_makes_one_request B self key st :
  trace (S3Service.delete_file B self key st).1
  = trace st ++ [EvDelete (S3Service.bucket_name self) key
                   (delete_object B (trace st) (S3Service.bucket_name self) key)] /\
  (S3Service.delete_file B self key st).2
  = Return (bool_decide (delete_object B (trace st) (S3Service.bucket_name self) key = None)).
Proof.
  unfold S3Service.delete_file. run_step.
  by destruct (delete_object B (trace st) _ key) as [[| |]|].
Qed.

(** X7. [file_exists] answers [True] exactly when the probe raised nothing,
    and [False] for every [ClientError], whatever its code: a refused or
    failing probe reads as an absent object.  It writes no log. *)
Theorem file_exists_answers B self key st :
  ((S3Service.file_exists B self key st).2 = Return true <->
   head_object B (trace st) (S3Service.bucket_name self) key = None) /\
  (forall op code msg,
     head_object B (trace st) (S3Service.bucket_name self) key
     = Some (ClientError op code msg) ->
     (S3Service.file_exists B self key st).2 = Return false) /\
  logs (S3Service.file_exists B self key st).1 = logs st.
Proof.
  unfold S3Service.file_exists. run_step.
  destruct (head_object B (trace st) _ key) as [[| |]|]; simpl; split_and!; try done.
  all: split; done.
Qed.

Lemma file_exists_answers_witness :
  (S3Service.file_exists Scenario2.all_denied Scenario.service "a.png" initial).2
  = Return false.
Proof.
  destruct (file_exists_answers Scenario2.all_denied Scenario.service "a.png" initial)
    as (_ & Hfalse & _).
  apply (Hfalse "HeadObject" "AccessDenied" (Some "Access Denied")). reflexivity.
Defined.

Lemma append_inj_r a x y : a +:+ x = a +:+ y -> x = y.
Proof. induction a as [|c a IH]; simpl; [done|]. intros [= H]. by apply IH. Qed.

(** X8. For one service, [get_file_url] gives different keys different
    URLs. *)
Theorem get_file_url_is_injective self key1 key2 :
  S3Service.get_file_url self key1 = S3Service.get_file_url self key2 -> key1 = key2.
Proof.
  unfold S3Service.get_file_url. intros H.
  by do 3 apply append_inj_r in H.
Qed.

Lemma get_file_url_is_injective_witness : "a.png" = "a.png".
Proof.
  apply (get_file_url_is_injective Scenario.service "a.png" "a.png"). reflexivity.
Defined.

(** ** More on building the client *)

(** What building the client leaves in the trace: no request on an object;
    one bucket probe, of the configured bucket, when it succeeds; none when
    it fails. *)
Lemma init_inv B settings st st' res :
  S3Service.__init__ B settings st = (st', res) ->
  exists new,
    trace st' = trace st ++ new /\
    Footprint.object_requests new = [] /\
    match res with
    | Return self =>
        S3Service.bucket_name self = default "jfm02" (AWS_S3_BUCKET settings) /\
        Footprint.probes new = [S3Service.bucket_name self]
    | Raise _ => Footprint.probes new = []
    end.
Proof.
  unfold S3Service.__init__, settings_attr.
  unfold mbind, M_bind, bind, try_except, call, mret, M_ret, ret, raise.
  destruct (AWS_ACCESS_KEY_ID settings) as [ak|]; simpl;
    [|intros [= <- <-]; exists []; by rewrite app_nil_r].
  destruct (AWS_SECRET_ACCESS_KEY settings) as [sk|]; simpl;
    [|intros [= <- <-]; exists []; by rewrite app_nil_r].
  destruct (boto3_client B (trace st) ak sk _) as [e|] eqn:Hclient.
  - destruct e; simpl; unfold logger, raise; simpl; intros [= <- <-];
      by eexists [_].
  - set (self := {| S3Service.bucket_name := _ |}).
    set (st1 := {| trace := _; logs := _ |}).
    destruct (test_connection_never_raises B self st1) as (lv & msg & -> & _).
    intros [= <- <-]. simpl. eexists [_; _]. rewrite <- app_assoc. by split_and!.
Qed.

(** X9. The bucket probe never fails the construction and never raises:
    one [head_bucket] request, one log record, [INFO] when the bucket
    answers and [WARNING] for any exception. *)
Theorem probe_only_logs B self st :
  exists lv msg,
    S3Service._test_connection B self st
    = ({| trace := trace st ++ [EvHeadBucket (S3Service.bucket_name self)
                                  (head_bucket B (trace st) (S3Service.bucket_name self))];
          logs := logs st ++ [(lv, msg)] |}, Return tt) /\
    (lv = INFO <-> head_bucket B (trace st) (S3Service.bucket_name self) = None) /\
    (lv = WARNING <-> head_bucket B (trace st) (S3Service.bucket_name self) <> None).
Proof. apply test_connection_never_raises. Qed.

(** X10. When the settings define both credentials and the factory returns
    a client, construction succeeds whatever the probe answers, for the
    bucket [AWS_S3_BUCKET] or [jfm02] when that setting is missing. *)
Theorem construction_survives_the_probe B settings access_key secret_key st :
  AWS_ACCESS_KEY_ID settings = Some access_key ->
  AWS_SECRET_ACCESS_KEY settings = Some secret_key ->
  boto3_client B (trace st) access_key secret_key (default "us-east-1" (AWS_REGION settings))
  = None ->
  (S3Service.__init__ B settings st).2
  = Return {| S3Service.bucket_name := default "jfm02" (AWS_S3_BUCKET settings) |}.
Proof. apply init_succeeds_whatever_the_probe. Qed.

Lemma construction_survives_the_probe_witness :
  (S3Service.__init__ Scenario2.probe_denied Scenario.configured initial).2
  = Return {| S3Service.bucket_name := "jfm02" |}.
Proof.
  apply (construction_survives_the_probe Scenario2.probe_denied Scenario.configured
           (Some "AKIAEXAMPLE") (Some "secret") initial); reflexivity.
Defined.

(** X11. An exception of the client factory ends the construction before
    any probe: [NoCredentialsError] is logged and replaced by a generic
    exception, any other exception leaves as it is. *)
Theorem construction_fails_with_the_factory B settings access_key secret_key st e :
  AWS_ACCESS_KEY_ID settings = Some access_key ->
  AWS_SECRET_ACCESS_KEY settings = Some secret_key ->
  boto3_client B (trace st) access_key secret_key (default "us-east-1" (AWS_REGION settings))
  = Some e ->
  (S3Service.__init__ B settings st).2
  = Raise (match e with
           | NoCredentialsError => Exception "AWS credentials not configured properly"
           | _ => e
           end) /\
  Footprint.probes (trace (S3Service.__init__ B settings st).1) = Footprint.probes (trace st).
Proof.
  intros Hak Hsk Hclient. unfold S3Service.__init__, settings_attr. run_step.
  rewrite Hak, Hsk. simpl. rewrite Hclient.
  destruct e; simpl; (split; [done|]);
    unfold Footprint.probes; rewrite omap_app; simpl; by rewrite app_nil_r.
Qed.

Lemma construction_fails_with_the_factory_witness :
  (S3Service.__init__ Scenario2.factory_without_credentials Scenario.configured initial).2
  = Raise (Exception "AWS credentials not configured properly").
Proof.
  apply (construction_fails_with_the_factory Scenario2.factory_without_credentials
           Scenario.configured (Some "AKIAEXAMPLE") (Some "secret") initial
           NoCredentialsError); reflexivity.
Defined.

(** X12. When the settings do not define one of the two credentials,
    construction raises [AttributeError] before any backend call and
    without a log record. *)
Theorem construction_needs_both_settings B settings st :
  AWS_ACCESS_KEY_ID settings = None \/ AWS_SECRET_ACCESS_KEY settings = None ->
  exists msg,
    S3Service.__init__ B settings st = (st, Raise (PyError "AttributeError" msg)).
Proof.
  unfold S3Service.__init__, settings_attr. run_step.
  intros [H|H].
  - rewrite H. by eexists.
  - destruct (AWS_ACCESS_KEY_ID settings); rewrite ?H; by eexists.
Qed.

Lemma construction_needs_both_settings_witness :
  exists msg,
    S3Service.__init__ Scenario.healthy Scenario2.half_configured initial
    = (initial, Raise (PyError "AttributeError" msg)).
Proof.
  apply (construction_needs_both_settings Scenario.healthy Scenario2.half_configured initial).
  right. reflexivity.
Defined.

(** ** More on bucket names *)

Lemma all_chars_stripped s :
  Py.all_chars Py.is_alnum (Py.replace "." "" (Py.replace "-" "" s))
  = Py.all_chars (fun c => Py.is_alnum c || Ascii.eqb c "-" || Ascii.eqb c ".") s.
Proof.
  induction s as [|c s IH]; [done|]. simpl.
  destruct (Ascii.eqb c "-") eqn:Hdash; simpl.
  - by rewrite orb_true_r.
  - destruct (Ascii.eqb c ".") eqn:Hdot; simpl.
    + by rewrite orb_true_r.
    + by rewrite IH, !orb_false_r.
Qed.

Lemma truthy_stripped s :
  Py.truthy (Py.replace "." "" (Py.replace "-" "" s))
  = negb (Py.all_chars (fun c => Ascii.eqb c "-" || Ascii.eqb c ".") s).
Proof.
  induction s as [|c s IH]; [done|]. simpl.
  destruct (Ascii.eqb c "-") eqn:Hdash; simpl; [done|].
  by destruct (Ascii.eqb c ".") eqn:Hdot; simpl.
Qed.

Lemma isalnum_truthy s : Py.isalnum s = Py.truthy s && Py.all_chars Py.is_alnum s.
Proof. by destruct s. Qed.

(** The character test of the validators, spelled out. *)
Lemma bucket_charset_ok_spec s :
  ConfigForm.bucket_charset_ok s
  = negb (Py.all_chars (fun c => Ascii.eqb c "-" || Ascii.eqb c ".") s)
    && Py.all_chars (fun c => Py.is_alnum c || Ascii.eqb c "-" || Ascii.eqb c ".") s.
Proof.
  unfold ConfigForm.bucket_charset_ok.
  by rewrite isalnum_truthy, truthy_stripped, all_chars_stripped.
Qed.

Lemma bucket_length_bad_spec s :
  ConfigForm.bucket_length_bad s = false <-> 3 <= Py.len s <= 63.
Proof.
  unfold ConfigForm.bucket_length_bad. rewrite orb_false_iff, !Nat.ltb_ge. lia.
Qed.

(** X13. The validator of the primary bucket name accepts exactly the
    names of 3 to 63 characters each of which is a hyphen, a dot or
    alphanumeric in the sense of [str.isalnum], with at least one character
    that is neither a hyphen nor a dot; a missing or empty name and a name
    of hyphens and dots only are rejected. *)
Theorem bucket_name_accepted_iff data :
  (exists accepted, ConfigForm.clean_bucket_name data = Return accepted) <->
  (exists s,
     ConfigForm.bucket_name data = Some s /\
     3 <= Py.len s <= 63 /\
     Py.all_chars (fun c => Py.is_alnum c || Ascii.eqb c "-" || Ascii.eqb c ".") s = true /\
     Py.all_chars (fun c => Ascii.eqb c "-" || Ascii.eqb c ".") s = false).
Proof.
  unfold ConfigForm.clean_bucket_name.
  destruct (ConfigForm.bucket_name data) as [s|]; [|split; [by intros [? ?]|by intros (? & ? & _)]].
  pose proof (bucket_charset_ok_spec s) as Hchars.
  pose proof (bucket_length_bad_spec s) as Hlen.
  split.
  - intros [accepted Hok]. exists s.
    destruct (Py.truthy s); [|done]. simpl in Hok.
    destruct (ConfigForm.bucket_charset_ok s); [|done]. simpl in Hok.
    destruct (ConfigForm.bucket_length_bad s); [done|].
    symmetry in Hchars. apply andb_true_iff in Hchars as [Hsome Hall].
    apply negb_true_iff in Hsome. split_and!; [done|by apply Hlen|by apply Hlen|done|done].
  - intros (s' & [= <-] & Hrange & Hall & Hsome).
    rewrite Hall, Hsome in Hchars. simpl in Hchars. rewrite Hchars. simpl.
    apply Hlen in Hrange. rewrite Hrange.
    destruct s as [|c s]; [simpl in Hsome; done|]. simpl. by eexists.
Qed.

Lemma bucket_name_accepted_iff_witness :
  (exists accepted,
     ConfigForm.clean_bucket_name (Scenario.form "my-bucket.01") = Return accepted) /\
  ~ (exists accepted, ConfigForm.clean_bucket_name (Scenario.form "-.-") = Return accepted).
Proof.
  split.
  - apply (bucket_name_accepted_iff (Scenario.form "my-bucket.01")).
    exists "my-bucket.01". split_and!; [reflexivity|vm_compute; lia|vm_compute; lia|
                                       reflexivity|reflexivity].
  - intros H. apply (bucket_name_accepted_iff (Scenario.form "-.-")) in H
      as (s & [= <-] & _ & _ & Hsome). discriminate Hsome.
Defined.

Lemma lower_char_lower c : Py.lower_char (Py.lower_char c) = Py.lower_char c.
Proof. destruct c as [[] [] [] [] [] [] [] []]; reflexivity. Qed.

Lemma lower_char_not_upper c : Py.is_upper (Py.lower_char c) = false.
Proof. destruct c as [[] [] [] [] [] [] [] []]; reflexivity. Qed.

Lemma lower_char_allowed c :
  Py.is_alnum (Py.lower_char c) || Ascii.eqb (Py.lower_char c) "-"
    || Ascii.eqb (Py.lower_char c) "."
  = Py.is_alnum c || Ascii.eqb c "-" || Ascii.eqb c ".".
Proof. destruct c as [[] [] [] [] [] [] [] []]; reflexivity. Qed.

Lemma lower_char_dash_or_dot c :
  Ascii.eqb (Py.lower_char c) "-" || Ascii.eqb (Py.lower_char c) "."
  = Ascii.eqb c "-" || Ascii.eqb c ".".
Proof. destruct c as [[] [] [] [] [] [] [] []]; reflexivity. Qed.

Lemma all_chars_lower p s :
  (forall c, p (Py.lower_char c) = p c) -> Py.all_chars p (Py.lower s) = Py.all_chars p s.
Proof. intros Hp. induction s as [|c s IH]; [done|]. simpl. by rewrite Hp, IH. Qed.

Lemma lower_lower s : Py.lower (Py.lower s) = Py.lower s.
Proof. induction s as [|c s IH]; [done|]. simpl. by rewrite lower_char_lower, IH. Qed.

Lemma len_lower s : Py.len (Py.lower s) = Py.len s.
Proof. induction s as [|c s IH]; [done|]. simpl. f_equal. exact IH. Qed.

Lemma truthy_lower s : Py.truthy (Py.lower s) = Py.truthy s.
Proof. by destruct s. Qed.

Lemma bucket_charset_ok_lower s :
  ConfigForm.bucket_charset_ok (Py.lower s) = ConfigForm.bucket_charset_ok s.
Proof.
  rewrite !bucket_charset_ok_spec.
  rewrite (all_chars_lower _ s lower_char_dash_or_dot).
  by rewrite (all_chars_lower _ s lower_char_allowed).
Qed.

(** X14. For a name of ASCII characters, what the validator returns has no
    upper-case letter and is a fixed point: validating it again accepts it
    and returns it unchanged. *)
Theorem accepted_bucket_name_is_stable data name accepted :
  ConfigForm.bucket_name data = Some name ->
  Py.all_chars Py.is_ascii name = true ->
  ConfigForm.clean_bucket_name data = Return accepted ->
  Py.all_chars (fun c => negb (Py.is_upper c)) accepted = true /\
  forall backup,
    ConfigForm.clean_bucket_name
      {| ConfigForm.bucket_name := Some accepted; ConfigForm.backup_bucket := backup |}
    = Return accepted.
Proof.
  intros Hname _. unfold ConfigForm.clean_bucket_name. simpl. rewrite Hname.
  rename name into s.
  destruct (Py.truthy s) eqn:Htruthy; [|done]. simpl.
  destruct (ConfigForm.bucket_charset_ok s) eqn:Hchars; [|done]. simpl.
  destruct (ConfigForm.bucket_length_bad s) eqn:Hlen; [done|].
  intros [= <-]. split.
  - clear. induction s as [|c s IH]; [done|]. simpl. by rewrite lower_char_not_upper, IH.
  - intros _. rewrite truthy_lower, Htruthy, bucket_charset_ok_lower, Hchars. simpl.
    unfold ConfigForm.bucket_length_bad in *. rewrite len_lower, Hlen.
    by rewrite lower_lower.
Qed.

Lemma accepted_bucket_name_is_stable_witness :
  Py.all_chars (fun c => negb (Py.is_upper c)) "my-bucket" = true /\
  forall backup,
    ConfigForm.clean_bucket_name
      {| ConfigForm.bucket_name := Some "my-bucket"; ConfigForm.backup_bucket := backup |}
    = Return "my-bucket".
Proof.
  apply (accepted_bucket_name_is_stable (Scenario.form "My-Bucket") "My-Bucket" "my-bucket");
    reflexivity.
Defined.

(** X15. The backup bucket is optional: a missing or blank name is returned
    as it is.  A name that is not blank is accepted under the same rule as
    the primary name, with the same lower-cased result. *)
Theorem backup_bucket_follows_the_primary_rule data :
  (ConfigForm.backup_bucket data = None -> ConfigForm.clean_backup_bucket data = Return None) /\
  (ConfigForm.backup_bucket data = Some "" ->
   ConfigForm.clean_backup_bucket data = Return (Some "")) /\
  (forall s primary accepted,
     ConfigForm.backup_bucket data = Some s ->
     s <> "" ->
     ConfigForm.bucket_name primary = Some s ->
     (ConfigForm.clean_backup_bucket data = Return (Some accepted) <->
      ConfigForm.clean_bucket_name primary = Return accepted)).
Proof.
  unfold ConfigForm.clean_backup_bucket, ConfigForm.clean_bucket_name.
  split_and!.
  - by intros ->.
  - by intros ->.
  - intros s primary accepted -> Hs ->.
    destruct s as [|c s]; [done|]. simpl.
    destruct (ConfigForm.bucket_charset_ok (String c s)); simpl; [|done].
    destruct (ConfigForm.bucket_length_bad (String c s)); [done|].
    split; by intros [= <-].
Qed.

Lemma backup_bucket_follows_the_primary_rule_witness :
  ConfigForm.clean_backup_bucket
    {| ConfigForm.bucket_name := None; ConfigForm.backup_bucket := Some "" |}
  = Return (Some "") /\
  ConfigForm.clean_backup_bucket
    {| ConfigForm.bucket_name := None; ConfigForm.backup_bucket := Some "Backup.01" |}
  = Return (Some "backup.01").
Proof.
  split.
  - destruct (backup_bucket_follows_the_primary_rule
                {| ConfigForm.bucket_name := None; ConfigForm.backup_bucket := Some "" |})
      as (_ & Hblank & _).
    apply Hblank. reflexivity.
  - destruct (backup_bucket_follows_the_primary_rule
                {| ConfigForm.bucket_name := None;
                   ConfigForm.backup_bucket := Some "Backup.01" |})
      as (_ & _ & Hsame).
    apply (Hsame "Backup.01" (Scenario.form "Backup.01") "backup.01");
      [reflexivity|discriminate|reflexivity|reflexivity].
Defined.

Lemma lower_empty s : Py.lower s = "" -> s = "".
Proof. by destruct s. Qed.

(** X16. After the two field validators have accepted the names, the
    form-level check rejects the pair exactly when the names are equal up
    to the case of their letters; a blank backup name always passes. *)
Theorem equal_names_are_rejected data primary backup cleaned_primary cleaned_backup :
  ConfigForm.bucket_name data = Some primary ->
  ConfigForm.backup_bucket data = Some backup ->
  ConfigForm.clean_bucket_name data = Return cleaned_primary ->
  ConfigForm.clean_backup_bucket data = Return (Some cleaned_backup) ->
  let cleaned := {| ConfigForm.bucket_name := Some cleaned_primary;
                    ConfigForm.backup_bucket := Some cleaned_backup |} in
  (Py.lower primary = Py.lower backup ->
   ConfigForm.clean cleaned
   = Raise (ValidationError
              "El bucket principal y el bucket de backup no pueden ser el mismo.")) /\
  (Py.lower primary <> Py.lower backup -> ConfigForm.clean cleaned = Return cleaned).
Proof.
  unfold ConfigForm.clean_bucket_name, ConfigForm.clean_backup_bucket, ConfigForm.clean.
  intros -> ->. simpl.
  destruct (Py.truthy primary) eqn:Hp; [|done]. simpl.
  destruct (ConfigForm.bucket_charset_ok primary); [|done]. simpl.
  destruct (ConfigForm.bucket_length_bad primary); [done|].
  intros [= <-]. rewrite truthy_lower, Hp. simpl.
  destruct (Py.truthy backup) eqn:Hb.
  - destruct (negb (ConfigForm.bucket_charset_ok backup)); [done|].
    destruct (ConfigForm.bucket_length_bad backup); [done|].
    intros [= <-]. rewrite truthy_lower, Hb. simpl.
    destruct (String.eqb_spec (Py.lower primary) (Py.lower backup)); by split.
  - intros [= <-]. destruct backup; [|done]. simpl.
    split; [|done]. intros H. apply lower_empty in H. by subst.
Qed.

Lemma equal_names_are_rejected_witness :
  ConfigForm.clean
    {| ConfigForm.bucket_name := Some "jfm02"; ConfigForm.backup_bucket := Some "jfm02" |}
  = Raise (ValidationError
             "El bucket principal y el bucket de backup no pueden ser el mismo.").
Proof.
  destruct (equal_names_are_rejected
              {| ConfigForm.bucket_name := Some "JFM02";
                 ConfigForm.backup_bucket := Some "jfm02" |}
              "JFM02" "jfm02" "jfm02" "jfm02" eq_refl eq_refl eq_refl eq_refl)
    as [Hsame _].
  apply Hsame. reflexivity.
Defined.

(** ** Image files *)

Lemma contains_false_app c a b :
  Py.contains c (a +:+ b) = Py.contains c a || Py.contains c b.
Proof.
  induction a as [|d a IH]; [done|]. simpl. by destruct (Ascii.eqb d c).
Qed.

Lemma append_empty_r s : s +:+ "" = s.
Proof.
  induction s as [|c s IH]; [done|].
  change (String c (s +:+ "") = String c s). by rewrite IH.
Qed.

(** [rsplit] cuts at the last occurrence. *)
Lemma rsplit_spec c s before after :
  OsPath.rsplit c s = Some (before, after) ->
  s = before +:+ String c after /\ Py.contains c after = false.
Proof.
  revert before. induction s as [|d s IH]; intros before; [done|]. simpl.
  destruct (OsPath.rsplit c s) as [[b a]|] eqn:E.
  - intros [= <- <-]. destruct (IH b eq_refl) as [-> Hafter]. by split.
  - destruct (Ascii.eqb_spec d c) as [->|]; [|done].
    intros [= <- <-]. split; [done|].
    clear IH. induction s as [|e s IH]; [done|]. simpl in *.
    destruct (OsPath.rsplit c s) as [[b a]|]; [done|].
    destruct (Ascii.eqb e c); [done|]. by apply IH.
Qed.

(** [root + ext == p], and an extension starts with the last dot of [p]. *)
Lemma splitext_spec p :
  (OsPath.splitext p).1 +:+ (OsPath.splitext p).2 = p /\
  ((OsPath.splitext p).2 = "" \/
   exists after,
     (OsPath.splitext p).2 = String "." after /\
     Py.contains "." after = false /\ Py.contains "/" after = false).
Proof.
  unfold OsPath.splitext.
  destruct (OsPath.rsplit "." p) as [[root after]|] eqn:E; simpl.
  - apply rsplit_spec in E as [-> Hafter].
    destruct (Py.contains "/" after) eqn:Hslash; simpl.
    { split; [apply append_empty_r|by left]. }
    destruct (Py.all_chars _ _); simpl.
    { split; [apply append_empty_r|by left]. }
    split; [done|]. right. by exists after.
  - split; [apply append_empty_r|by left].
Qed.

Lemma mem_In x l : ProductForm.mem x l = true <-> In x l.
Proof.
  unfold ProductForm.mem. rewrite existsb_exists. split.
  - intros (y & Hin & Heq). apply String.eqb_eq in Heq. by subst.
  - intros Hin. exists x. split; [done|]. apply String.eqb_refl.
Qed.

(** X17. The image validator lets a missing file and a file with an empty
    name through untouched.  It accepts a named file exactly when the
    lower-cased extension of the name is one of .jpg .jpeg .png .gif .webp,
    the declared content type, if the object has one, is one of the five
    image types, and the size is at most 5 MiB (5242880 bytes, included);
    what it returns is the file itself. *)
Theorem image_accepted_iff img :
  ProductForm.clean_image None = Return None /\
  (ProductForm.image_name img = "" -> ProductForm.clean_image (Some img) = Return (Some img)) /\
  (ProductForm.image_name img <> "" ->
   ((exists r, ProductForm.clean_image (Some img) = Return r) <->
    In (Py.lower (OsPath.splitext (ProductForm.image_name img)).2)
       [".jpg"; ".jpeg"; ".png"; ".gif"; ".webp"] /\
    (forall ct, ProductForm.content_type img = Some ct ->
                In ct ["image/jpeg"; "image/jpg"; "image/png"; "image/gif"; "image/webp"]) /\
    (ProductForm.size img <= 5242880)%N) /\
   (forall r, ProductForm.clean_image (Some img) = Return r -> r = Some img)).
Proof.
  split_and!; [done|by unfold ProductForm.clean_image; intros ->|].
  intros Hname. unfold ProductForm.clean_image.
  destruct (ProductForm.image_name img) as [|c n] eqn:Hn; [done|]. simpl Py.truthy. cbv iota.
  set (ext := Py.lower _).
  pose proof (mem_In ext ProductForm.valid_extensions) as Hext.
  change ProductForm.valid_extensions with [".jpg"; ".jpeg"; ".png"; ".gif"; ".webp"] in Hext.
  destruct (ProductForm.mem ext _) eqn:Hmem; unfold negb; cbv beta iota.
  2:{ split; [split; [intros [? [=]]|]|intros ? [=]].
      intros (Hin & _). apply (proj2 Hext) in Hin. discriminate. }
  assert (Hin : In ext [".jpg"; ".jpeg"; ".png"; ".gif"; ".webp"]) by (by apply (proj1 Hext)).
  destruct (ProductForm.content_type img) as [ct|] eqn:Hct.
  - pose proof (mem_In ct ProductForm.valid_mime_types) as Hmime.
    change ProductForm.valid_mime_types
      with ["image/jpeg"; "image/jpg"; "image/png"; "image/gif"; "image/webp"] in Hmime.
    destruct (ProductForm.mem ct _) eqn:Hm; unfold negb; cbv beta iota.
    2:{ split; [split; [intros [? [=]]|]|intros ? [=]].
        intros (_ & Hall & _). specialize (Hall ct eq_refl). apply (proj2 Hmime) in Hall. discriminate. }
    change ProductForm.max_size with 5242880%N.
    destruct (N.ltb_spec 5242880 (ProductForm.size img)).
    + split; [split; [intros [? [=]]|]|intros ? [=]]. intros (_ & _ & Hle). lia.
    + split; [|by intros r [= <-]]. split; [|by eexists].
      intros _. split_and!; [done| |done]. intros ct' [= <-]. by apply (proj1 Hmime).
  - change ProductForm.max_size with 5242880%N.
    destruct (N.ltb_spec 5242880 (ProductForm.size img)).
    + split; [split; [intros [? [=]]|]|intros ? [=]]. intros (_ & _ & Hle). lia.
    + split; [|by intros r [= <-]]. split; [|by eexists].
      intros _. by split_and!.
Qed.

Lemma image_accepted_iff_witness :
  exists r, ProductForm.clean_image (Some Scenario2.photo) = Return r.
Proof.
  destruct (image_accepted_iff Scenario2.photo) as (_ & _ & Hnamed).
  destruct Hnamed as [Hiff _]; [discriminate|].
  apply Hiff. split_and!.
  - vm_compute. left. reflexivity.
  - intros ct [= <-]. left. reflexivity.
  - vm_compute. discriminate.
Defined.

Lemma lower_dot after : Py.lower (String "." after) = String "." (Py.lower after).
Proof. reflexivity. Qed.

(** The extension [os.path.splitext] finds is the one the content-type
    inference uses. *)
Lemma extension_of_splitext p after :
  (OsPath.splitext p).2 = String "." after ->
  S3Service.extension p = Py.lower after.
Proof.
  intros Hext. destruct (splitext_spec p) as [Hp [Hnone|(after' & Hsome & Hdot & _)]].
  - rewrite Hnone in Hext. discriminate.
  - rewrite Hsome in Hext. injection Hext as ->.
    rewrite <- Hp, Hsome.
    change (String "." after) with ("." +:+ after).
    by apply extension_after_last_dot.
Qed.

(** X18. A file name the image validator accepts is uploaded with an image
    content type, never [application/octet-stream]: .jpg and .jpeg go out
    as image/jpeg, .png as image/png, .gif as image/gif and .webp as
    image/webp, whatever the case of the extension. *)
Theorem accepted_images_get_an_image_type img r :
  ProductForm.clean_image (Some img) = Return r ->
  ProductForm.image_name img <> "" ->
  In (S3Service._get_content_type (ProductForm.image_name img))
     ["image/jpeg"; "image/png"; "image/gif"; "image/webp"].
Proof.
  intros Hok Hname.
  destruct (image_accepted_iff img) as (_ & _ & Hnamed).
  destruct (Hnamed Hname) as [Hiff _].
  destruct (proj1 Hiff (ex_intro _ r Hok)) as (Hext & _).
  destruct (splitext_spec (ProductForm.image_name img)) as [_ [Hnone|(after & Hsome & _)]].
  { rewrite Hnone in Hext. simpl in Hext. intuition discriminate. }
  unfold S3Service._get_content_type.
  rewrite (extension_of_splitext _ after Hsome).
  rewrite Hsome, lower_dot in Hext. simpl in Hext.
  destruct Hext as [H|[H|[H|[H|[H|[]]]]]]; injection H as <-; vm_compute; tauto.
Qed.

Lemma accepted_images_get_an_image_type_witness :
  In (S3Service._get_content_type "Photo.JPG")
     ["image/jpeg"; "image/png"; "image/gif"; "image/webp"].
Proof.
  apply (accepted_images_get_an_image_type Scenario2.photo (Some Scenario2.photo)).
  - reflexivity.
  - discriminate.
Defined.

(** ** Views on images and products *)

Ltac view_step :=
  unfold mbind, V_bind, M_bind, mret, V_ret, M_ret, vbind, vret, vtry_except, bind, ret,
    raise, try_except, on_storage, message, delete_row, lift in *; simpl in *.

(** One upload request for an open stream, with what it answers. *)
Lemma upload_file_open B self file key st :
  closed file = false ->
  exists resp logs' res,
    S3Service.upload_file B self file key st
    = ({| trace := trace st ++ [EvUpload (S3Service.bucket_name self) key
                                  (S3Service._get_content_type (default key (name file)))
                                  (data file) resp];
          logs := logs' |}, res) /\
    (res = Return true -> resp = None).
Proof.
  intros Hopen. unfold S3Service.upload_file, seek, read_all. run_step.
  rewrite Hopen. simpl.
  destruct (upload_fileobj B (trace st) _ key _ _) as [[op code [m|]| |]|] eqn:E;
    eexists _, _, _; simpl; (split; [reflexivity|done]).
Qed.

(** X19. [handle_image_upload] never raises.  It reports success only after
    the backend has confirmed an upload of the whole file, under the key
    products/<uuid><extension of the original name> and with the content
    type of the original name; that key then is the product's image name.
    When it reports a failure the product is as it was and the tuple carries
    a message. *)
Theorem image_upload_outcome B settings fresh_uuid image_file product st :
  exists flag kind msg product',
    (handle_image_upload B settings fresh_uuid image_file product st).2
    = Return ((flag, kind, msg), product') /\
    (flag = false -> product' = product /\ msg <> None) /\
    (flag = true ->
     exists original bucket pre,
       name image_file = Some original /\
       Product.name product' = Product.name product /\
       Product.image product'
       = "products/" +:+ fresh_uuid +:+ (OsPath.splitext original).2 /\
       trace (handle_image_upload B settings fresh_uuid image_file product st).1
       = pre ++ [EvUpload bucket (Product.image product')
                   (S3Service._get_content_type original) (data image_file) None]).
Proof.
  unfold handle_image_upload, file_name, seek.
  unfold mbind, M_bind, bind, try_except, mret, M_ret, ret, raise.
  destruct (name image_file) as [original|] eqn:Hname;
    [|eexists _, _, _, _; split_and!; [reflexivity|done|done]].
  destruct (closed image_file) eqn:Hclosed;
    [eexists _, _, _, _; split_and!; [reflexivity|done|done]|].
  cbv beta iota zeta.
  destruct (S3Service.__init__ B settings st) as [st1 [self|e]] eqn:Hinit;
    [|eexists _, _, _, _; split_and!; [reflexivity|done|done]].
  cbv beta iota zeta.
  match goal with
  | |- context [S3Service.upload_file B self ?buffer ?key st1] =>
      destruct (upload_file_open B self buffer key st1 eq_refl)
        as (resp & logs' & res & -> & Hres)
  end.
  destruct res as [[|]|e]; cbv beta iota zeta.
  - rewrite (Hres eq_refl).
    eexists _, _, _, _; split_and!; [reflexivity|done|].
    intros _. by eexists original, _, _.
  - eexists _, _, _, _; split_and!; [reflexivity|done|done].
  - eexists _, _, _, _; split_and!; [reflexivity|done|done].
Qed.

(** What [get_image_url] does. *)
Lemma get_image_url_inv B settings product st :
  exists o new,
    (get_image_url B settings product st).2 = Return o /\
    trace (get_image_url B settings product st).1 = trace st ++ new /\
    Footprint.object_requests new = [] /\
    (Product.image product = "" -> o = None /\ new = []) /\
    (forall url,
       o = Some url ->
       url = "https://" +:+ default "jfm02" (AWS_S3_BUCKET settings)
               +:+ ".s3.amazonaws.com/" +:+ Product.image product /\
       Footprint.probes new = [default "jfm02" (AWS_S3_BUCKET settings)]).
Proof.
  unfold get_image_url.
  destruct (Product.image product) as [|c n] eqn:Himage; simpl.
  - exists None, []. rewrite app_nil_r. by split_and!.
  - unfold mbind, M_bind, bind, try_except, mret, M_ret, ret.
    destruct (S3Service.__init__ B settings st) as [st1 [self|e]] eqn:Hinit;
      apply init_inv in Hinit as (new & Htr & Hobjects & Hres); simpl.
    + destruct Hres as [Hbucket Hprobes].
      eexists _, new. split_and!; [reflexivity|done|done|done|].
      intros url [= <-]. unfold S3Service.get_file_url. by rewrite <- Hbucket.
    + eexists _, new. by split_and!.
Qed.

(** X20. [get_image_url] never raises and never asks the backend about the
    object: a product without image gives [None] without any backend call;
    otherwise every call builds a client and probes the bucket once, and
    the URL of the configured bucket is returned whatever the probe said,
    [None] only when the construction failed. *)
Theorem image_url_without_existence_check B settings product st :
  exists o new,
    (get_image_url B settings product st).2 = Return o /\
    trace (get_image_url B settings product st).1 = trace st ++ new /\
    Footprint.object_requests new = [] /\
    (Product.image product = "" -> o = None /\ new = []) /\
    (forall url,
       o = Some url ->
       url = "https://" +:+ default "jfm02" (AWS_S3_BUCKET settings)
               +:+ ".s3.amazonaws.com/" +:+ Product.image product /\
       Footprint.probes new = [default "jfm02" (AWS_S3_BUCKET settings)]).
Proof. apply get_image_url_inv. Qed.

Lemma image_url_without_existence_check_witness :
  (get_image_url Scenario2.probe_denied Scenario.configured Scenario2.lamp initial).2
  = Return (Some "https://jfm02.s3.amazonaws.com/products/1.png").
Proof.
  destruct (image_url_without_existence_check Scenario2.probe_denied Scenario.configured
              Scenario2.lamp initial) as (o & new & Hres & _ & _ & _ & Hurl).
  rewrite Hres. f_equal.
  destruct o as [url|]; [|discriminate Hres].
  destruct (Hurl url eq_refl) as [-> _]. reflexivity.
Defined.

(** X21. Any request on the delete view that is not a POST only shows the
    confirmation page: the row stays, no flash message is added and no
    request on an object is made. *)
Theorem delete_view_shows_the_page B settings method product db_delete w :
  String.eqb method "POST" = false ->
  exists url new,
    (product_delete B settings method (Some product) db_delete w).2
    = Return (Render "product_confirm_delete.html" product url) /\
    row_deleted (product_delete B settings method (Some product) db_delete w).1
    = row_deleted w /\
    flash (product_delete B settings method (Some product) db_delete w).1 = flash w /\
    trace (storage (product_delete B settings method (Some product) db_delete w).1)
    = trace (storage w) ++ new /\
    Footprint.object_requests new = [].
Proof.
  intros Hmethod. unfold product_delete. rewrite Hmethod.
  destruct (get_image_url_inv B settings product (storage w))
    as (o & new & Hres & Htr & Hobjects & _).
  view_step.
  destruct (get_image_url B settings product (storage w)) as [st1 res]. simpl in *.
  subst res. simpl. by eexists _, new.
Qed.

Lemma delete_view_shows_the_page_witness :
  exists url,
    (product_delete Scenario.healthy Scenario.configured "GET" (Some Scenario2.lamp) None
       Scenario2.fresh_world).2
    = Return (Render "product_confirm_delete.html" Scenario2.lamp url).
Proof.
  destruct (delete_view_shows_the_page Scenario.healthy Scenario.configured "GET"
              Scenario2.lamp None Scenario2.fresh_world eq_refl)
    as (url & new & Hres & _).
  by exists url.
Defined.

Lemma image_upload_outcome_witness :
  exists pre,
    trace (handle_image_upload Scenario.healthy Scenario.configured "u-1"
             (Scenario.stream (Some "Photo.JPG")) Scenario2.lamp initial).1
    = pre ++ [EvUpload "jfm02" "products/u-1.JPG" "image/jpeg" [Byte.x89; Byte.x50] None].
Proof.
  destruct (image_upload_outcome Scenario.healthy Scenario.configured "u-1"
              (Scenario.stream (Some "Photo.JPG")) Scenario2.lamp initial)
    as (flag & kind & msg & product' & Hres & _ & Hok).
  injection Hres as <- _ _ <-.
  destruct (Hok eq_refl) as (original & bucket & pre & Hname & _ & _ & Htrace).
  injection Hname as <-.
  exists pre. rewrite Htrace. f_equal. f_equal.
  apply (f_equal (fun l => last l)) in Htrace. rewrite last_snoc in Htrace.
  vm_compute in Htrace. by injection Htrace as <-.
Defined.

(** What a delete request on an object leaves behind. *)
Lemma delete_file_inv B self key st :
  exists logs',
    S3Service.delete_file B self key st
    = ({| trace := trace st ++ [EvDelete (S3Service.bucket_name self) key
                                  (delete_object B (trace st) (S3Service.bucket_name self) key)];
          logs := logs' |},
       Return (bool_decide
                 (delete_object B (trace st) (S3Service.bucket_name self) key = None))).
Proof.
  unfold S3Service.delete_file. run_step.
  destruct (delete_object B (trace st) _ key) as [[| |]|]; by eexists.
Qed.

(** The POST path of the delete view once the client is built. *)
Lemma product_delete_post B settings product w st1 self db_delete :
  Product.image product <> "" ->
  S3Service.__init__ B settings (storage w) = (st1, Return self) ->
  let resp := delete_object B (trace st1) (S3Service.bucket_name self)
                (Product.image product) in
  let w' := (product_delete B settings "POST" (Some product) db_delete w).1 in
  (product_delete B settings "POST" (Some product) db_delete w).2
  = Return (Redirect "product_list") /\
  trace (storage w')
  = trace st1 ++ [EvDelete (S3Service.bucket_name self) (Product.image product) resp] /\
  row_deleted w' = match db_delete with None => true | Some _ => row_deleted w end /\
  flash w'
  = flash w
      ++ match resp with
         | Some _ =>
             [(MsgWarning,
               "Producto " +:+ dquote +:+ Product.name product +:+ dquote
                 +:+ " eliminado, pero hubo un problema al eliminar la imagen de S3.")]
         | None => []
         end
      ++ [match db_delete with
          | None => (MsgSuccess, "Producto " +:+ dquote +:+ Product.name product +:+ dquote
                                   +:+ " eliminado exitosamente.")
          | Some e => (MsgError, "Error al eliminar el producto: " +:+ str e)
          end].
Proof.
  intros Himage Hinit. unfold product_delete.
  destruct (Product.image product) as [|c n] eqn:Himg; [done|].
  change (Py.truthy (String c n)) with true. cbv iota.
  unfold mbind, V_bind, mret, V_ret, vbind, vret, vtry_except, on_storage.
  change (String.eqb "POST" "POST") with true. cbv iota beta.
  rewrite Hinit. cbv iota beta. cbn [storage flash row_deleted].
  destruct (delete_file_inv B self (String c n) st1) as (logs' & ->).
  unfold message, delete_row.
  destruct (delete_object B (trace st1) _ _) as [e|];
    destruct db_delete as [e'|]; cbn; by rewrite <- ?app_assoc.
Qed.

(** X22. A POST on the delete view deletes the row even when the image
    could not be deleted from the bucket: once the client is built and the
    database accepts the deletion, the row is gone and the view redirects
    with the success message, preceded by a warning exactly when the one
    delete request on the image failed. *)
Theorem row_is_deleted_despite_storage_failure B settings product w st1 self :
  Product.image product <> "" ->
  S3Service.__init__ B settings (storage w) = (st1, Return self) ->
  let resp := delete_object B (trace st1) (S3Service.bucket_name self)
                (Product.image product) in
  let w' := (product_delete B settings "POST" (Some product) None w).1 in
  (product_delete B settings "POST" (Some product) None w).2
  = Return (Redirect "product_list") /\
  row_deleted w' = true /\
  trace (storage w')
  = trace st1 ++ [EvDelete (S3Service.bucket_name self) (Product.image product) resp] /\
  flash w'
  = flash w
      ++ match resp with
         | Some _ =>
             [(MsgWarning,
               "Producto " +:+ dquote +:+ Product.name product +:+ dquote
                 +:+ " eliminado, pero hubo un problema al eliminar la imagen de S3.")]
         | None => []
         end
      ++ [(MsgSuccess, "Producto " +:+ dquote +:+ Product.name product +:+ dquote
                         +:+ " eliminado exitosamente.")].
Proof.
  intros Himage Hinit.
  destruct (product_delete_post B settings product w st1 self None Himage Hinit)
    as (Hres & Htr & Hrow & Hflash).
  by split_and!.
Qed.

Lemma row_is_deleted_despite_storage_failure_witness :
  row_deleted (product_delete Scenario.endpoint_down Scenario.configured "POST"
                 (Some Scenario2.lamp) None Scenario2.fresh_world).1 = true.
Proof.
  destruct (row_is_deleted_despite_storage_failure Scenario.endpoint_down
              Scenario.configured Scenario2.lamp Scenario2.fresh_world
              (S3Service.__init__ Scenario.endpoint_down Scenario.configured initial).1
              Scenario.service)
    as (_ & Hrow & _).
  - discriminate.
  - reflexivity.
  - exact Hrow.
Defined.

(** X23. When the database refuses the deletion, the row stays and the view
    redirects with an error message, but the delete request on the image
    has already been made: an image the backend deleted is gone while the
    row still names it. *)
Theorem image_is_deleted_before_the_row B settings product w st1 self e :
  Product.image product <> "" ->
  S3Service.__init__ B settings (storage w) = (st1, Return self) ->
  let resp := delete_object B (trace st1) (S3Service.bucket_name self)
                (Product.image product) in
  let w' := (product_delete B settings "POST" (Some product) (Some e) w).1 in
  (product_delete B settings "POST" (Some product) (Some e) w).2
  = Return (Redirect "product_list") /\
  row_deleted w' = row_deleted w /\
  trace (storage w')
  = trace st1 ++ [EvDelete (S3Service.bucket_name self) (Product.image product) resp] /\
  last (flash w') = Some (MsgError, "Error al eliminar el producto: " +:+ str e).
Proof.
  intros Himage Hinit.
  destruct (product_delete_post B settings product w st1 self (Some e) Himage Hinit)
    as (Hres & Htr & Hrow & Hflash).
  split_and!; [done|done|done|].
  by rewrite Hflash, app_assoc, last_snoc.
Qed.

Lemma image_is_deleted_before_the_row_witness :
  trace (storage (product_delete Scenario.healthy Scenario.configured "POST"
                    (Some Scenario2.lamp) (Some (PyError "DatabaseError" "locked"))
                    Scenario2.fresh_world).1)
  = trace (S3Service.__init__ Scenario.healthy Scenario.configured initial).1
      ++ [EvDelete "jfm02" "products/1.png" None] /\
  row_deleted (product_delete Scenario.healthy Scenario.configured "POST"
                 (Some Scenario2.lamp) (Some (PyError "DatabaseError" "locked"))
                 Scenario2.fresh_world).1 = false.
Proof.
  destruct (image_is_deleted_before_the_row Scenario.healthy Scenario.configured
              Scenario2.lamp Scenario2.fresh_world
              (S3Service.__init__ Scenario.healthy Scenario.configured initial).1
              Scenario.service (PyError "DatabaseError" "locked"))
    as (_ & Hrow & Htr & _).
  - discriminate.
  - reflexivity.
  - split; [exact Htr|exact Hrow].
Defined.

(** X24. When the client cannot be built, a POST on the delete view deletes
    nothing: no delete request is made, the row stays, and the view
    redirects with the error as a flash message. *)
Theorem nothing_is_deleted_without_a_client B settings product db_delete w st1 e :
  Product.image product <> "" ->
  S3Service.__init__ B settings (storage w) = (st1, Raise e) ->
  product_delete B settings "POST" (Some product) db_delete w
  = ({| storage := st1;
        flash := flash w ++ [(MsgError, "Error al eliminar el producto: " +:+ str e)];
        row_deleted := row_deleted w |},
     Return (Redirect "product_list")).
Proof.
  intros Himage Hinit. unfold product_delete.
  destruct (Product.image product) as [|c n]; [done|].
  change (Py.truthy (String c n)) with true. cbv iota.
  unfold mbind, V_bind, mret, V_ret, vbind, vret, vtry_except, on_storage, message.
  change (String.eqb "POST" "POST") with true. cbv iota beta.
  by rewrite Hinit.
Qed.

Lemma nothing_is_deleted_without_a_client_witness :
  row_deleted (product_delete Scenario2.factory_without_credentials Scenario.configured
                 "POST" (Some Scenario2.lamp) None Scenario2.fresh_world).1 = false.
Proof.
  rewrite (nothing_is_deleted_without_a_client Scenario2.factory_without_credentials
             Scenario.configured Scenario2.lamp None Scenario2.fresh_world
             (S3Service.__init__ Scenario2.factory_without_credentials Scenario.configured
                initial).1
             (Exception "AWS credentials not configured properly")).
  - reflexivity.
  - discriminate.
  - reflexivity.
Defined.

(** ** More on the backup view *)

(** A returned report is balanced (from the run lemmas). *)
Lemma returned_report_balanced B source target st st' r :
  S3Service.copy_all_files B source target st = (st', Return r) ->
  total_processed r = success_count r + List.length (failed_files r).
Proof.
  intros Hrun.
  apply copy_all_files_inv in Hrun as (st1 & res1 & Hloop & _ & Hres).
  destruct res1 as [r1|e]; [|done]. injection Hres as ->.
  apply copy_pages_inv in Hloop as (new & _ & _ & -> & _).
  by apply report_after_balanced.
Qed.

(** X25. The backup view always answers with a JSON body, whatever the
    database, the construction of the client or the run do.  A success
    body only answers a POST, carries a balanced report, and has the
    warning flag exactly when some copy failed. *)
Theorem backup_view_always_answers B settings method first st :
  exists body,
    (admin_backup B settings method first st).2 = Return body /\
    match body with
    | JsonFailure _ => True
    | JsonSuccess warning _ results =>
        method = "POST" /\
        (warning = true <-> failed_files results <> []) /\
        total_processed results
        = success_count results + List.length (failed_files results)
    end.
Proof.
  unfold admin_backup.
  destruct (String.eqb_spec method "POST") as [->|_]; [|by eexists].
  unfold mbind, M_bind, bind, try_except, mret, M_ret, ret, lift.
  destruct first as [[config|]|e]; [|by eexists|by eexists].
  destruct (Py.truthy (backup_bucket config)); cbv beta iota; [|by eexists].
  unfold negb. cbv iota.
  destruct (S3Service.__init__ B settings st) as [st1 [self|e]]; [|by eexists].
  destruct (S3Service.copy_all_files B (bucket_name config) (backup_bucket config) st1)
    as [st2 [r|e]] eqn:Hrun; [|by eexists].
  apply returned_report_balanced in Hrun.
  destruct (failed_files r) as [|f fs] eqn:Hfailed; eexists; (split; [reflexivity|]);
    simpl; rewrite Hfailed; split_and!; done.
Qed.

(** X26. On a POST with a backup bucket configured, an exception of the
    construction of the client or of the run becomes the failure body
    "Error durante el backup: " followed by [str] of the exception; so does
    an exception of the database when the configuration is read. *)
Theorem backup_view_reports_exceptions B settings config st :
  backup_bucket config <> "" ->
  (forall e, admin_backup B settings "POST" (Raise e) st
             = (st, Return (JsonFailure ("Error durante el backup: " +:+ str e)))) /\
  (forall st1 e,
     S3Service.__init__ B settings st = (st1, Raise e) ->
     admin_backup B settings "POST" (Return (Some config)) st
     = (st1, Return (JsonFailure ("Error durante el backup: " +:+ str e)))) /\
  (forall st1 self st2 e,
     S3Service.__init__ B settings st = (st1, Return self) ->
     S3Service.copy_all_files B (bucket_name config) (backup_bucket config) st1
     = (st2, Raise e) ->
     admin_backup B settings "POST" (Return (Some config)) st
     = (st2, Return (JsonFailure ("Error durante el backup: " +:+ str e)))).
Proof.
  intros Hbackup. unfold admin_backup.
  change (String.eqb "POST" "POST") with true. cbv iota.
  unfold mbind, M_bind, bind, try_except, mret, M_ret, ret, lift.
  split_and!; [done| |].
  - intros st1 e Hinit.
    destruct (backup_bucket config); [done|]. cbn [Py.truthy negb]. cbv iota.
    by rewrite Hinit.
  - intros st1 self st2 e Hinit Hrun.
    destruct (backup_bucket config) eqn:Hb; [done|]. cbn [Py.truthy negb]. cbv iota.
    by rewrite Hinit, Hrun.
Qed.

Lemma backup_view_reports_exceptions_witness :
  (admin_backup Scenario.listing_denied Scenario.configured "POST"
     (Return (Some {| bucket_name := "jfm02"; backup_bucket := "jfm02-backup" |}))
     initial).2
  = Return (JsonFailure
              ("Error durante el backup: Cannot access source bucket: "
                 +:+ str (Scenario.access_denied "ListObjectsV2"))).
Proof.
  destruct (backup_view_reports_exceptions Scenario.listing_denied Scenario.configured
              {| bucket_name := "jfm02"; backup_bucket := "jfm02-backup" |} initial)
    as (_ & _ & Hrun); [discriminate|].
  rewrite (Hrun (S3Service.__init__ Scenario.listing_denied Scenario.configured initial).1
             Scenario.service
             (S3Service.copy_all_files Scenario.listing_denied "jfm02" "jfm02-backup"
                (S3Service.__init__ Scenario.listing_denied Scenario.configured initial).1).1
             (Exception ("Cannot access source bucket: "
                           +:+ str (Scenario.access_denied "ListObjectsV2")))
             eq_refl eq_refl).
  reflexivity.
Defined.
